(** * coTestPilot: the check-and-persist pipeline, embedded and verified

  A shallow embedding of the two driver bindings of coTestPilot
  ([Playwright/playwright_sync_cotestpilot/__init__.py] and
  [Selenium/4/py/selenium_cotestpilot/__init__.py]): tester selection,
  the vision prompt, the rate limiter, [chat_vision], the retry loop,
  [check] with its outermost handler and its persistence step, the
  module's load-time credential probe and the file selection of
  [ai_report].

  Conventions of the embedding.
  - Python [str] is [string]; [str.lower] is modelled on ASCII letters.
  - Python values that travel through [json] are the inductive [json].
  - Exceptions are values of [exn]; a Python function that can raise is
    a computation of the monad [M] over the record [World], which holds
    everything the code reads from or writes to outside of its
    arguments: the file system, the clock, the log, the HTTP endpoint
    and the global rate limiter. The globals a loaded module keeps
    unchanged are the record [Module].
  - Paths are compared as written: the file system does not normalise
    [.], [..] or repeated separators.
  - Times are rational numbers of seconds. *)

From Stdlib Require Import Ascii QArith Lqa.
From stdpp Require Import gmap strings list pretty.
Close Scope Q_scope.

(** ** Strings as the code uses them *)

Module Str.

(** [c.lower()] on one ASCII character. *)
Definition lower_ascii (c : ascii) : ascii :=
  let n := nat_of_ascii c in
  if (65 <=? n) && (n <=? 90) then ascii_of_nat (n + 32) else c.

(** [s.lower()] on ASCII text: the letters A to Z are lowered, every other
    character is kept. *)
Fixpoint lower (s : string) : string :=
  match s with
  | EmptyString => EmptyString
  | String c s' => String (lower_ascii c) (lower s')
  end.

(** [needle in hay] on Python strings. *)
Fixpoint contains (needle hay : string) : bool :=
  String.prefix needle hay ||
  match hay with
  | EmptyString => false
  | String _ hay' => contains needle hay'
  end.

(** [s.startswith(p)] *)
Definition startswith (p s : string) : bool := String.prefix p s.

(** [s.endswith(p)] *)
Fixpoint endswith (p s : string) : bool :=
  String.eqb p s ||
  match s with
  | EmptyString => false
  | String _ s' => endswith p s'
  end.

(** [bool(s)]: a string is truthy when it is not empty. *)
Definition truthy (s : string) : bool :=
  match s with EmptyString => false | _ => true end.

(** The propositions the boolean tests decide. *)
Definition is_substring (needle hay : string) : Prop :=
  ∃ pre post, hay = pre +:+ needle +:+ post.
Definition is_prefix (p s : string) : Prop := ∃ post, s = p +:+ post.
Definition is_suffix (p s : string) : Prop := ∃ pre, s = pre +:+ p.

(** The double quote, which string literals of this file do not hold. *)
Definition dq : string := String (ascii_of_nat 34) EmptyString.

(** The line feed. *)
Definition nl : string := String (ascii_of_nat 10) EmptyString.

End Str.

(** ** The tester catalog and tester selection *)

(** One entry of [testers.json]. *)
Record Tester := mkTester { name : string; biography : string }.

Module Registry.

(** [t['name'].lower() == 'jason'] *)
Definition is_jason (t : Tester) : bool :=
  String.eqb (Str.lower (name t)) "jason".

(** [any(requested.lower() in t['name'].lower() for requested in testers)] *)
Definition matches_any (testers : list string) (t : Tester) : bool :=
  existsb (λ requested, Str.contains (Str.lower requested) (Str.lower (name t)))
          testers.

(** The selection step of [check]: [TESTERS] is the module's catalog,
    [testers] the argument of [check] ([None] for Python's [None]).
    The returned flag tells whether the fallback warning was logged. *)
Definition select_testers_logged (TESTERS : list Tester)
    (testers : option (list string)) : list Tester * bool :=
  match testers with
  | None => (List.filter is_jason TESTERS, false)
  | Some requested =>
      let selected_testers := List.filter (matches_any requested) TESTERS in
      match selected_testers with
      | [] => (List.filter is_jason TESTERS, true)
      | _ :: _ => (selected_testers, false)
      end
  end.

Definition select_testers (TESTERS : list Tester)
    (testers : option (list string)) : list Tester :=
  fst (select_testers_logged TESTERS testers).

(** What the selection is specified by. *)
Definition named_jason (t : Tester) : Prop := Str.lower (name t) = "jason".

Definition requested_match (requested : list string) (t : Tester) : Prop :=
  ∃ r, r ∈ requested ∧ Str.is_substring (Str.lower r) (Str.lower (name t)).

End Registry.

(** ** The vision prompt *)

Module Prompt.
Import Str.

(** The default of [check]'s [output] argument. *)
Definition default_output : string :=
  "return list of issues as an array of JSON objects with properties: title, severity, description, why_fix, how_to_fix, confidence (a number between 0 and 1)".

Definition prompt_head : string :=
"Please analyze this webpage for any errors, issues, or problems.

IMPORTANT: Only return high-confidence issues. It is perfectly acceptable to return no issues if none are found with high confidence.
For each issue found, include a confidence score between 0 and 1, where:
- 1.0 means absolutely certain this is an issue
- 0.8-0.9 means very confident
- 0.7-0.8 means reasonably confident
- Below 0.7 should not be reported

Severity levels (0-3):
0 = Cosmetic: Minor visual or text issues that don't impact functionality or understanding
1 = Low: Issues that cause minor inconvenience but don't prevent core functionality
2 = Medium: Issues that significantly impact user experience or partially break functionality
3 = High: Critical issues that prevent core functionality or severely impact user experience or the business.

Page URL: ".

Definition prompt_text_label : string :=
"
Page Text Content:
".

Definition prompt_you_are : string :=
"

You are ".

Definition prompt_expertise : string :=
", and this is your expertise and background:
".

Definition prompt_identify : string :=
"

Please identify any:
1. Visual errors or layout issues
2. Content errors or inconsistencies
3. Functionality problems that are visible
4. Any other issues that might affect user experience

Output format: ".

(** One line [    "key": "value",] of the worked example. *)
Definition example_field (key value : string) (last : bool) : string :=
  "        " +:+ dq +:+ key +:+ dq +:+ ": " +:+ dq +:+ value +:+ dq
  +:+ (if last then EmptyString else ",") +:+ nl.

Definition prompt_example : string :=
  nl +:+ nl +:+ "Example format:" +:+ nl +:+ "[" +:+ nl +:+ "    {" +:+ nl
  +:+ example_field "title" "Broken image link" false
  +:+ example_field "severity" "high" false
  +:+ example_field "description" "Image on homepage fails to load" false
  +:+ example_field "why_fix" "Impacts user experience and site professionalism" false
  +:+ example_field "how_to_fix" "Update image source URL or replace missing image" false
  +:+ "        " +:+ dq +:+ "confidence" +:+ dq +:+ ": 0.95," +:+ nl
  +:+ example_field "related_context_if_any"
        "The image is a logo and its url is 'https://www.google.com/images/branding/googlelogo/2x/googlelogo_light_color_272x92dp.png' and is used in the header"
        true
  +:+ "    }" +:+ nl +:+ "]" +:+ nl +:+ nl
  +:+ "return only the JSON array, no other text or comments." +:+ nl +:+ nl.

(** [{custom_prompt if custom_prompt else ''}] *)
Definition custom_tail (custom_prompt : option string) : string :=
  match custom_prompt with
  | Some c => if truthy c then c else EmptyString
  | None => EmptyString
  end.

(** The f-string [vision_prompt] of [check]'s tester loop. *)
Definition vision_prompt (url page_text : string) (tester : Tester)
    (output : string) (custom_prompt : option string) : string :=
  prompt_head +:+ url +:+ prompt_text_label +:+ page_text
  +:+ prompt_you_are +:+ name tester +:+ prompt_expertise +:+ biography tester
  +:+ prompt_identify +:+ output +:+ prompt_example
  +:+ custom_tail custom_prompt.

End Prompt.

(** ** Python values, exceptions and the world *)

(** The values that pass through [json.load], [json.loads] and
  [json.dump]; a Python [dict] with string keys is a [JObj] (its items
  in insertion order), a [list] is a [JArr]. *)
#[warnings="-register-all"]
Inductive json :=
  | JNull
  | JBool (b : bool)
  | JNum (q : Q)
  | JStr (s : string)
  | JArr (items : list json)
  | JObj (fields : list (string * json)).

(** The exceptions the two modules can meet; all of them are subclasses
  of Python's [Exception]. [RequestException] stands for the whole
  [requests.exceptions] hierarchy (connection errors, timeouts,
  [HTTPError]); [OSError] for the file-system errors; [DriverError] for
  what Playwright or Selenium raise. *)
Inductive exn :=
  | ValueError (msg : string)
  | TypeError (msg : string)
  | RuntimeError (msg : string)
  | KeyError (msg : string)
  | IndexError (msg : string)
  | NameError (msg : string)
  | UnboundLocalError (msg : string)
  | OSError (msg : string)
  | FileNotFoundError (msg : string)
  | JSONDecodeError (msg : string)
  | RequestException (msg : string)
  | DriverError (msg : string).

(** [str(e)] *)
Definition str_of_exn (e : exn) : string :=
  match e with
  | ValueError m | TypeError m | RuntimeError m | KeyError m | IndexError m
  | NameError m | UnboundLocalError m | OSError m | FileNotFoundError m
  | JSONDecodeError m | RequestException m | DriverError m => m
  end.

(** [isinstance(e, requests.exceptions.RequestException)] *)
Definition is_request_exception (e : exn) : bool :=
  match e with RequestException _ => true | _ => false end.

(** How a call ends. *)
Inductive Outcome (A : Type) :=
  | Returned (a : A)
  | Raised (e : exn).
Arguments Returned {A} a.
Arguments Raised {A} e.

Inductive level := DEBUG | INFO | WARNING | ERROR.

(** What a request to the chat-completions endpoint meets: no response at
  all ([requests.post] raises), or a response with a status code and a
  body ([None]: a body that is not JSON). *)
Inductive http_outcome :=
  | ConnectFailed (msg : string)
  | Response (status : Z) (body : option json).

(** The two parts of the payload that vary. *)
Record request := mkRequest { req_text : string; req_image_url : string;
                              req_authorization : string }.

(** [class RateLimiter] *)
Record RateLimiter := mkRateLimiter { min_interval : Q; last_call : Q }.

(** A local variable of a running call. *)
Inductive local (A : Type) :=
  | Unbound
  | Bound (a : A).
Arguments Unbound {A}.
Arguments Bound {A} a.

(** Library functions the embedding leaves uninterpreted: the two
  [strftime] formats, [base64.b64encode(..).decode('utf-8')], and the
  [json] codec on text. *)
Record PyLib := mkPyLib {
  stamp_compact : Q → string;     (* strftime("%Y%m%d_%H%M%S") *)
  stamp_human : Q → string;       (* strftime("%Y-%m-%d %H:%M:%S") *)
  b64encode : string → string;
  json_loads : string → option json;   (* None: JSONDecodeError *)
  json_dumps : json → string;          (* json.dump(.., indent=2) *)
}.

(** [class Config] / [DEFAULT_CONFIG] *)
Record Config := mkConfig {
  api_rate_limit : Q;
  screenshot_retention_days : Z;
  max_retries : Z;
}.

(** The globals of a loaded module that [check] and [chat_vision] read. *)
Record Module := mkModule {
  TESTERS : list Tester;
  DEFAULT_CONFIG : Config;
  api_key : option string;
}.

(** Everything outside the arguments. [w_lags] is the time the
  environment lets pass at each operation on the clock (first entry
  first; none left: no time passes); [w_endpoint n] is what the [n]-th
  request meets; [w_denied p] tells that creating or writing [p] fails;
  [w_limiter] is the global [api_rate_limiter]; [w_output_file_path] is
  the local variable [output_file_path] of the running [check]. *)
Record World := mkWorld {
  w_fs : gmap string string;
  w_denied : string → bool;
  w_clock : Q;
  w_lags : list Q;
  w_slept : list Q;
  w_log : list (level * string);
  w_requests : list request;
  w_endpoint : nat → http_outcome;
  w_limiter : RateLimiter;
  w_output_file_path : local (option string);
}.

Definition set_fs (f : gmap string string → gmap string string) (w : World) : World :=
  mkWorld (f (w_fs w)) (w_denied w) (w_clock w) (w_lags w) (w_slept w) (w_log w)
          (w_requests w) (w_endpoint w) (w_limiter w) (w_output_file_path w).
Definition set_time (c : Q) (lags : list Q) (w : World) : World :=
  mkWorld (w_fs w) (w_denied w) c lags (w_slept w) (w_log w)
          (w_requests w) (w_endpoint w) (w_limiter w) (w_output_file_path w).
Definition add_slept (d : Q) (w : World) : World :=
  mkWorld (w_fs w) (w_denied w) (w_clock w) (w_lags w) (d :: w_slept w) (w_log w)
          (w_requests w) (w_endpoint w) (w_limiter w) (w_output_file_path w).
Definition add_log (r : level * string) (w : World) : World :=
  mkWorld (w_fs w) (w_denied w) (w_clock w) (w_lags w) (w_slept w) (r :: w_log w)
          (w_requests w) (w_endpoint w) (w_limiter w) (w_output_file_path w).
Definition add_request (r : request) (w : World) : World :=
  mkWorld (w_fs w) (w_denied w) (w_clock w) (w_lags w) (w_slept w) (w_log w)
          (r :: w_requests w) (w_endpoint w) (w_limiter w) (w_output_file_path w).
Definition set_limiter (rl : RateLimiter) (w : World) : World :=
  mkWorld (w_fs w) (w_denied w) (w_clock w) (w_lags w) (w_slept w) (w_log w)
          (w_requests w) (w_endpoint w) rl (w_output_file_path w).
Definition set_output_file_path (v : local (option string)) (w : World) : World :=
  mkWorld (w_fs w) (w_denied w) (w_clock w) (w_lags w) (w_slept w) (w_log w)
          (w_requests w) (w_endpoint w) (w_limiter w) v.

(** ** The monad of calls *)

Definition M (A : Type) : Type := World → Outcome A * World.

#[global] Instance M_ret : MRet M := λ A a w, (Returned a, w).
#[global] Instance M_bind : MBind M := λ A B f c w,
  match c w with
  | (Returned a, w') => f a w'
  | (Raised e, w') => (Raised e, w')
  end.

Definition raise {A} (e : exn) : M A := λ w, (Raised e, w).
Definition get {A} (f : World → A) : M A := λ w, (Returned (f w), w).
Definition modify (f : World → World) : M unit := λ w, (Returned tt, f w).

(** [try: c  except Exception as e: h e] *)
Definition try_except {A} (c : M A) (h : exn → M A) : M A := λ w,
  match c w with
  | (Returned a, w') => (Returned a, w')
  | (Raised e, w') => h e w'
  end.

(** [try: c  except (classes) as e: h e], the classes given by [p]. *)
Definition try_except_only {A} (p : exn → bool) (c : M A) (h : exn → M A) : M A :=
  try_except c (λ e, if p e then h e else raise e).

(** [if c: raise e] *)
Definition raise_if (c : bool) (e : exn) : M unit :=
  if c then raise e else mret tt.

(** [logger.<level>(msg)]; the log keeps the constant part of a message. *)
Definition log (l : level) (msg : string) : M unit := modify (add_log (l, msg)).

(** ** The clock *)

(** One reading of the clock ([time.time()], [datetime.now()]): the
  environment lets some time pass, then the clock is read. *)
Definition clock_read : M Q := λ w,
  match w_lags w with
  | [] => (Returned (w_clock w), w)
  | d :: lags => let c := (w_clock w + d)%Q in (Returned c, set_time c lags w)
  end.

(** [time.sleep(d)]: at least [d] seconds pass. *)
Definition time_sleep (d : Q) : M unit := λ w,
  if Qlt_le_dec d 0 then (Raised (ValueError "sleep length must be non-negative"), w)
  else
    let w := add_slept d w in
    match w_lags w with
    | [] => (Returned tt, set_time (w_clock w + d)%Q [] w)
    | o :: lags => (Returned tt, set_time (w_clock w + d + o)%Q lags w)
    end.

(** ** The rate limiter *)

Module Limiter.

(** [RateLimiter.__init__]; [None]: [ZeroDivisionError]. The quotient is
    the exact one; the code stores the binary64 quotient
    [1.0 / calls_per_second], which the statements on [wait] take as
    any stored [min_interval]. *)
Definition init (calls_per_second : Q) : option RateLimiter :=
  if Qeq_bool calls_per_second 0 then None
  else Some (mkRateLimiter (1 / calls_per_second)%Q 0%Q).

(** [RateLimiter.wait]; the object after the call is returned. *)
Definition wait (self : RateLimiter) : M RateLimiter :=
  now ← clock_read;
  let elapsed := (now - last_call self)%Q in
  (if Qlt_le_dec elapsed (min_interval self)
   then time_sleep (min_interval self - elapsed)%Q
   else mret tt);;
  t ← clock_read;
  mret (mkRateLimiter (min_interval self) t).

(** [n] calls of [wait] in a row by one caller; the clock readings
    stored in [last_call] at the end of each call, in order. *)
Fixpoint waits (n : nat) (self : RateLimiter) : M (list Q) :=
  match n with
  | O => mret []
  | S n' =>
      self' ← wait self;
      rest ← waits n' self';
      mret (last_call self' :: rest)
  end.

(** Successive entries are at least [gap] apart. *)
Fixpoint separated (gap : Q) (ts : list Q) : Prop :=
  match ts with
  | t1 :: ((t2 :: _) as rest) => (t1 + gap <= t2)%Q ∧ separated gap rest
  | _ => True
  end.

End Limiter.

(** ** Values of the [json] module as Python handles them *)

Module Py.

(** [d[key]] on an object's fields. *)
Fixpoint assoc (key : string) (fields : list (string * json)) : option json :=
  match fields with
  | [] => None
  | (k, v) :: rest => if String.eqb k key then Some v else assoc key rest
  end.

(** [v[key]] for a string [key]. *)
Definition getitem_key (v : json) (key : string) : M json :=
  match v with
  | JObj fields =>
      match assoc key fields with
      | Some x => mret x
      | None => raise (KeyError key)
      end
  | JArr _ => raise (TypeError "list indices must be integers or slices, not str")
  | JStr _ => raise (TypeError "string indices must be integers, not 'str'")
  | _ => raise (TypeError "object is not subscriptable")
  end.

(** [v[0]] *)
Definition getitem_first (v : json) : M json :=
  match v with
  | JArr (x :: _) => mret x
  | JArr [] => raise (IndexError "list index out of range")
  | JStr (String c _) => mret (JStr (String c EmptyString))
  | JStr EmptyString => raise (IndexError "string index out of range")
  | JObj _ => raise (KeyError "0")
  | _ => raise (TypeError "object is not subscriptable")
  end.

(** The characters of a string, each as a string. *)
Fixpoint chars (s : string) : list json :=
  match s with
  | EmptyString => []
  | String c s' => JStr (String c EmptyString) :: chars s'
  end.

(** What [all_issues.extend(v)] appends: the items of a list, the keys of
    a dict, the characters of a string; other values are not iterable. *)
Definition iterate (v : json) : Outcome (list json) :=
  match v with
  | JArr items => Returned items
  | JObj fields => Returned (map (λ kv, JStr (fst kv)) fields)
  | JStr s => Returned (chars s)
  | _ => Raised (TypeError "object is not iterable")
  end.

(** [x or "default"] for an optional string. *)
Definition or_default (x : option string) (d : string) : string :=
  match x with
  | Some s => if Str.truthy s then s else d
  | None => d
  end.

(** [bool(x)] for an optional string. *)
Definition truthy_opt (x : option string) : bool :=
  match x with
  | Some s => Str.truthy s
  | None => false
  end.

End Py.

(** ** Paths and files *)

Module Fs.

(** [os.path.join(a, b)] on POSIX. *)
Definition path_join (a b : string) : string :=
  if Str.startswith "/" b then b
  else if negb (Str.truthy a) || Str.endswith "/" a then a +:+ b
  else a +:+ "/" +:+ b.

(** [os.makedirs(path, exist_ok=True)]; directories themselves are not
    entries of the file map. *)
Definition makedirs (path : string) : M unit := λ w,
  if w_denied w path then (Raised (OSError "Permission denied"), w)
  else (Returned tt, w).

(** [open(path, 'r').read()] / [open(path, 'rb').read()] *)
Definition read_file (path : string) : M string := λ w,
  match w_fs w !! path with
  | Some content => (Returned content, w)
  | None => (Raised (FileNotFoundError "No such file or directory"), w)
  end.

(** [open(path, 'w').write(content)]; [path] is [None] when the variable
    passed to [open] holds [None]. *)
Definition write_file (path : option string) (content : string) : M unit := λ w,
  match path with
  | None =>
      (Raised (TypeError "expected str, bytes or os.PathLike object, not NoneType"), w)
  | Some p =>
      if w_denied w p then (Raised (OSError "Permission denied"), w)
      else (Returned tt, set_fs (insert p content) w)
  end.

(** [suffix] when [s] is [p] followed by [suffix]. *)
Fixpoint strip_prefix (p s : string) : option string :=
  match p with
  | EmptyString => Some s
  | String a p' =>
      match s with
      | EmptyString => None
      | String b s' => if Ascii.eqb a b then strip_prefix p' s' else None
      end
  end.

End Fs.

(** ** [chat_vision] *)

Module Vision.

Definition fence : string := "```".

(** What follows the first line feed of [s]; [None] when there is none. *)
Fixpoint after_newline (s : string) : option string :=
  match s with
  | EmptyString => None
  | String c s' => if Ascii.eqb c (ascii_of_nat 10) then Some s' else after_newline s'
  end.

(** [re.sub(r'```.*?\n|```', '', content)]: a fence is removed together
    with the rest of its line when a line feed follows, alone otherwise. *)
Fixpoint strip_fences_from (fuel : nat) (s : string) : string :=
  match fuel, s with
  | O, _ => s
  | _, EmptyString => EmptyString
  | S fuel', String c s' =>
      match Fs.strip_prefix fence s with
      | Some rest =>
          match after_newline rest with
          | Some tail => strip_fences_from fuel' tail
          | None => strip_fences_from fuel' rest
          end
      | None => String c (strip_fences_from fuel' s')
      end
  end.

Definition strip_fences (content : string) : string :=
  strip_fences_from (String.length content) content.

(** [requests.post(url, headers, json, timeout=30)]: the request is
    recorded, and the endpoint decides what it meets. *)
Definition requests_post (r : request) : M (Z * option json) := λ w,
  let w' := add_request r w in
  match w_endpoint w (length (w_requests w)) with
  | ConnectFailed msg => (Raised (RequestException msg), w')
  | Response status body => (Returned (status, body), w')
  end.

(** [response.raise_for_status()] *)
Definition raise_for_status (status : Z) : M unit :=
  raise_if ((400 <=? status)%Z && (status <? 600)%Z) (RequestException "HTTPError").

(** [response.json()]; [requests] raises its own [JSONDecodeError], a
    [RequestException]. *)
Definition response_json (body : option json) : M json :=
  match body with
  | Some v => mret v
  | None => raise (RequestException "Expecting value")
  end.

(** The [try] block of [chat_vision]. *)
Definition chat_vision_try (lib : PyLib) (m : Module)
    (prompt base64_image : string) (add_time : bool) : M json :=
  raise_if (negb (Py.truthy_opt (api_key m)))
           (RuntimeError "OPENAI_API_KEY environment variable must be set");;
  raise_if (negb (Str.truthy base64_image)) (ValueError "base64_image cannot be empty");;
  raise_if (negb (Str.truthy prompt)) (ValueError "prompt cannot be empty");;
  prompt ← (if add_time
            then now ← clock_read;
                 mret ("Current time: " +:+ stamp_human lib now +:+ Str.nl +:+ prompt)
            else mret prompt);
  response ← requests_post
    (mkRequest prompt ("data:image/jpeg;base64," +:+ base64_image)
               ("Bearer " +:+ default EmptyString (api_key m)));
  raise_for_status response.1;;
  resp ← response_json response.2;
  choices ← Py.getitem_key resp "choices";
  zero ← Py.getitem_first choices;
  msg ← Py.getitem_key zero "message";
  content ← Py.getitem_key msg "content";
  match content with
  | JStr content =>
      match json_loads lib (strip_fences content) with
      | Some ret => mret ret
      | None => raise (JSONDecodeError "Expecting value")
      end
  | _ => raise (TypeError "expected string or bytes-like object")
  end.

(** [chat_vision(prompt, base64_image, add_time=True)]: both handlers
    return the string ["[]"]. *)
Definition chat_vision (lib : PyLib) (m : Module)
    (prompt base64_image : string) (add_time : bool) : M json :=
  try_except (chat_vision_try lib m prompt base64_image add_time)
    (λ e, if is_request_exception e
          then log ERROR "API request failed";; mret (JStr "[]")
          else log ERROR "Error in chat_vision";; mret (JStr "[]")).

End Vision.

(** ** [check] *)

(** The browser behind [self]: what a screenshot yields ([None]: the
    driver raises), the page URL, and the text of the page body ([None]:
    the driver raises). *)
Record Driver := mkDriver {
  drv_screenshot : option string;
  drv_url : string;
  drv_body_text : option string;
}.

(** The arguments of [check]. *)
Record CheckArgs := mkCheckArgs {
  profile_search : option string;
  custom_rules : option json;
  custom_prompt : option string;
  output : string;
  testers : option (list string);
  label : option string;
  timeout : Z;
  save_to_file : bool;
  output_dir : option string;
}.

(** [class CheckResult] *)
Record CheckResult := mkCheckResult {
  cr_timestamp : Q;
  cr_url : string;
  cr_bugs : list json;
  cr_raw_response : json;
  cr_profile : string;
  cr_output_file : option string;
}.

Module Check.

(** The driver binding a copy of [check] belongs to. *)
Inductive binding := Playwright | Selenium.

(** One entry of [all_findings]. *)
Definition finding (tester : Tester) (vision_response : json) : json :=
  JObj [("tester", JStr (name tester));
        ("biography", JStr (biography tester));
        ("issues", vision_response)].

(** The dict [check_result]. *)
Definition check_record (timestamp url screenshot_path : string)
    (all_findings : list json) : json :=
  JObj [("timestamp", JStr timestamp);
        ("url", JStr url);
        ("screenshot", JStr screenshot_path);
        ("testers_results", JArr all_findings)].

(** [{"error": str(e)}] *)
Definition error_payload (e : exn) : json := JObj [("error", JStr (str_of_exn e))].

(** [self.screenshot(path=.., type='png')] raises when the file cannot be
    written; [self.get_screenshot_as_file(..)] returns [False] then. *)
Definition take_screenshot (b : binding) (self : Driver) (path : string) : M unit :=
  match drv_screenshot self with
  | None => raise (DriverError "screenshot failed")
  | Some png =>
      match b with
      | Playwright => Fs.write_file (Some path) png
      | Selenium =>
          try_except_only (λ e, match e with OSError _ => true | _ => false end)
            (Fs.write_file (Some path) png) (λ _, mret tt)
      end
  end.

(** [self.evaluate('() => document.body.innerText')] /
    [self.find_element("tag name", "body").text] *)
Definition body_text (self : Driver) : M string :=
  match drv_body_text self with
  | Some t => mret t
  | None => raise (DriverError "page text unavailable")
  end.

(** The [while retries > 0] loop, entered with [retries] attempts left;
    [analyze] is the call [chat_vision(vision_prompt, screenshot_base64)].
    [None]: the loop body never ran, [vision_response] was not assigned.
    This is the loop as Selenium's copy has it; Playwright's copy also
    prints the response inside the [try], and the loop is its loop for a
    standard output that takes what is printed. *)
Fixpoint retry_loop (analyze : M json) (retries : nat) : M (option json) :=
  match retries with
  | O => mret None
  | S remaining =>
      try_except (vision_response ← analyze; mret (Some vision_response))
        (λ e, match remaining with
              | O => raise e
              | S _ =>
                  log WARNING "API call failed, retrying...";;
                  time_sleep 2;;
                  retry_loop analyze remaining
              end)
  end.

(** The loop [for tester in selected_testers]; [vision_response] is the
    local variable of that name, which an iteration may leave as the
    previous one set it. The [print] statements of Playwright's copy are
    left out: the loop is Selenium's, and Playwright's for a standard
    output that takes what is printed. *)
Fixpoint analyse_testers (lib : PyLib) (m : Module)
    (url page_text screenshot_base64 : string) (a : CheckArgs)
    (vision_response : local json) (all_findings : list json)
    (selected_testers : list Tester) : M (list json) :=
  match selected_testers with
  | [] => mret all_findings
  | tester :: rest =>
      let vision_prompt :=
        Prompt.vision_prompt url page_text tester (output a) (custom_prompt a) in
      limiter ← get w_limiter;
      limiter ← Limiter.wait limiter;
      modify (set_limiter limiter);;
      assigned ← retry_loop (Vision.chat_vision lib m vision_prompt screenshot_base64 true)
                            (Z.to_nat (max_retries (DEFAULT_CONFIG m)));
      match from_option Bound vision_response assigned with
      | Unbound =>
          raise (UnboundLocalError
            "cannot access local variable 'vision_response' where it is not associated with a value")
      | Bound v =>
          analyse_testers lib m url page_text screenshot_base64 a
                          (Bound v) (all_findings ++ [finding tester v]) rest
      end
  end.

(** The loop that fills [all_issues]. *)
Fixpoint collect_issues (lib : PyLib) (all_issues : list json)
    (all_findings : list json) : M (list json) :=
  match all_findings with
  | [] => mret all_issues
  | tester_result :: rest =>
      all_issues ←
        try_except_only
          (λ e, match e with JSONDecodeError _ | KeyError _ => true | _ => false end)
          (issues ← Py.getitem_key tester_result "issues";
           issues ← match issues with
                    | JStr s =>
                        match json_loads lib s with
                        | Some v => mret v
                        | None => raise (JSONDecodeError "Expecting value")
                        end
                    | _ => mret issues
                    end;
           match Py.iterate issues with
           | Returned items => mret (all_issues ++ items)
           | Raised e => raise e
           end)
          (λ e, log WARNING "Error parsing issues from tester";; mret all_issues);
      collect_issues lib all_issues rest
  end.

(** The name of the result file. *)
Definition output_file_name (label : option string) (timestamp_str : string) : string :=
  if Py.truthy_opt label
  then default EmptyString label +:+ "_" +:+ timestamp_str +:+ "_ai.json"
  else "ai_checks_" +:+ timestamp_str +:+ ".json".

(** [json.load] of the file [output_file], as Playwright's copy reads it. *)
Definition load_existing (lib : PyLib) (output_file : string) : M (list json) :=
  try_except_only
    (λ e, match e with FileNotFoundError _ | JSONDecodeError _ => true | _ => false end)
    (content ← Fs.read_file output_file;
     match json_loads lib content with
     | Some (JArr existing_results) => mret existing_results
     | Some existing_results => mret [existing_results]
     | None => raise (JSONDecodeError "Expecting value")
     end)
    (λ _, mret []).

(** The block [if save_to_file: ...], after [output_file_path = None]. *)
Definition persist (b : binding) (lib : PyLib) (a : CheckArgs)
    (check_result : json) : M (option string) :=
  modify (set_output_file_path (Bound None));;
  if save_to_file a then
    now ← clock_read;
    let output_file := output_file_name (label a) (stamp_compact lib now) in
    output_file_path ←
      (if Py.truthy_opt (output_dir a) then
         let dir := default EmptyString (output_dir a) in
         Fs.makedirs dir;;
         let path := Some (Fs.path_join dir output_file) in
         modify (set_output_file_path (Bound path));;
         mret path
       else mret None);
    match b with
    | Playwright =>
        existing_results ← load_existing lib output_file;
        Fs.write_file output_file_path
          (json_dumps lib (JArr (existing_results ++ [check_result])))
    | Selenium =>
        Fs.write_file output_file_path (json_dumps lib check_result)
    end;;
    log INFO "AI check results saved";;
    mret output_file_path
  else mret None.

(** What the [try] block of [check] computes besides its result: the
    selected testers, kept for the statements about them. *)
Definition check_try (b : binding) (lib : PyLib) (m : Module) (self : Driver)
    (a : CheckArgs) : M (CheckResult * list Tester) :=
  log INFO "Starting page check";;
  Fs.makedirs "screenshots";;
  now ← clock_read;
  let timestamp := stamp_compact lib now in
  let screenshot_path := "screenshots/check_" +:+ timestamp +:+ ".png" in
  take_screenshot b self screenshot_path;;
  image ← Fs.read_file screenshot_path;
  let screenshot_base64 := b64encode lib image in
  (if (timeout a <? 1000)%Z
   then log WARNING "Timeout too low, setting to minimum 1000ms"
   else mret tt);;
  match custom_rules a with
  | None | Some (JObj _) => mret tt
  | Some _ =>
      log ERROR "custom_rules must be a dictionary";;
      raise (ValueError "custom_rules must be a dictionary")
  end;;
  let selection := Registry.select_testers_logged (TESTERS m) (testers a) in
  (if selection.2
   then log WARNING "No matching testers found. Using Jason as default tester."
   else mret tt);;
  let selected_testers := selection.1 in
  let url := drv_url self in
  page_text ← body_text self;
  all_findings ← analyse_testers lib m url page_text screenshot_base64 a
                                 Unbound [] selected_testers;
  let check_result := check_record timestamp url screenshot_path all_findings in
  (match b with Playwright => log INFO "check_result" | Selenium => mret tt end);;
  all_issues ← collect_issues lib [] all_findings;
  output_file_path ← persist b lib a check_result;
  now ← clock_read;
  mret (mkCheckResult now url all_issues check_result
                      (Py.or_default (profile_search a) "default")
                      output_file_path,
        selected_testers).

(** The handler [except Exception as e] of [check]. Playwright's copy
    passes the local variable [output_file_path], Selenium's passes
    [None]. The address is read again ([self.url], [self.current_url]),
    from a driver that still answers. *)
Definition check_except (b : binding) (self : Driver) (a : CheckArgs)
    (e : exn) : M CheckResult :=
  log ERROR "Critical error during page check";;
  now ← clock_read;
  let url := drv_url self in
  output_file ←
    match b with
    | Selenium => mret None
    | Playwright =>
        v ← get w_output_file_path;
        match v with
        | Bound path => mret path
        | Unbound =>
            raise (UnboundLocalError
              "cannot access local variable 'output_file_path' where it is not associated with a value")
        end
    end;
  mret (mkCheckResult now url [] (error_payload e)
                      (Py.or_default (profile_search a) "default") output_file).

(** [check(self, ...)], entered with no local variable bound. *)
Definition check (b : binding) (lib : PyLib) (m : Module) (self : Driver)
    (a : CheckArgs) : M CheckResult :=
  modify (set_output_file_path Unbound);;
  try_except (r ← check_try b lib m self a; mret r.1) (check_except b self a).

End Check.

(** ** [ai_report]: the result files it reads *)

Module Report.

(** [glob.has_magic] *)
Definition has_magic (s : string) : bool :=
  Str.contains "*" s || Str.contains "?" s || Str.contains "[" s.

(** [fnmatch(name, "ai_*.json")] *)
Definition fnmatch_ai_json (name : string) : bool :=
  match Fs.strip_prefix "ai_" name with
  | Some rest => Str.endswith ".json" rest
  | None => false
  end.

(** The name under which [path] is an entry of the directory [dir]. *)
Definition child_name (dir path : string) : option string :=
  match Fs.strip_prefix (Fs.path_join dir EmptyString) path with
  | Some n => if Str.truthy n && negb (Str.contains "/" n) then Some n else None
  | None => None
  end.

(** [glob.glob(os.path.join(output_dir, "ai_*.json"))] for an [output_dir]
    without glob metacharacters: the entries of that directory whose name
    matches. *)
Definition json_files (output_dir : string) (fs : gmap string string) : list string :=
  List.filter (λ path, match child_name output_dir path with
                       | Some n => fnmatch_ai_json n
                       | None => false
                       end)
              (map_to_list fs).*1.

(** What one result file adds to [all_results]; a file that does not
    parse is logged and skipped. *)
Definition load_results (lib : PyLib) (content : string) : list json :=
  match json_loads lib content with
  | Some (JArr results) => results
  | Some results => [results]
  | None => []
  end.

(** [all_results] after the loop over [json_files]. The rest of
    [ai_report] (copying screenshots, rendering the template) reads the
    result files through this list only. *)
Definition all_results (lib : PyLib) (output_dir : string)
    (fs : gmap string string) : list json :=
  flat_map (λ json_file, from_option (load_results lib) [] (fs !! json_file))
           (json_files output_dir fs).

End Report.

(** ** Loading the module *)

Module Load.

(** What [open(testers_path)] and [json.load(f)['testers']] meet, as far
    as the [try] statement handles it: a catalog that is read, and the
    three failures that are caught. A file that cannot be read or that
    holds JSON of another shape raises past the handlers. *)
Inductive catalog_resource :=
| CatalogNotFound
| CatalogInvalidJson
| CatalogNoTestersKey
| Catalog (testers : list Tester).

(** The [try] statement that sets [TESTERS]. *)
Definition load_testers (r : catalog_resource) : list Tester * (level * string) :=
  match r with
  | Catalog testers => (testers, (INFO, "Loaded testers"))
  | CatalogNotFound =>
      ([], (WARNING, "testers.json not found. No testing agents will be available."))
  | CatalogInvalidJson =>
      ([], (ERROR, "testers.json is invalid. No testing agents will be available."))
  | CatalogNoTestersKey =>
      ([], (ERROR, "testers.json missing 'reporters' key. No testing agents will be available."))
  end.

(** The names a module has bound when it reads the API key: the imports,
    classes, functions and variables of either binding up to that
    statement. *)
Definition module_names : list string :=
  ["logging"; "Optional"; "Dict"; "Any"; "Union"; "List"; "TypedDict";
   "SyncPage"; "webdriver"; "WebDriver"; "WebElement"; "WebDriverWait"; "EC";
   "TimeoutException"; "dataclass"; "datetime"; "timedelta"; "inspect";
   "requests"; "re"; "os"; "json"; "Enum"; "time"; "warnings"; "glob";
   "shutil"; "Template"; "logger"; "CheckResult"; "package_dir";
   "testers_path"; "f"; "TESTERS"; "LogLevel"; "Config"; "DEFAULT_CONFIG";
   "RateLimiter"; "api_rate_limiter"; "configure_logging"; "check";
   "_sync_impl"; "ai_report"; "getTimeStampStr"; "api_key"].

(** The functions of Python's [builtins] module. *)
Definition builtin_names : list string :=
  ["abs"; "aiter"; "all"; "anext"; "any"; "ascii"; "bin"; "bool";
   "breakpoint"; "bytearray"; "bytes"; "callable"; "chr"; "classmethod";
   "compile"; "complex"; "delattr"; "dict"; "dir"; "divmod"; "enumerate";
   "eval"; "exec"; "exit"; "filter"; "float"; "format"; "frozenset";
   "getattr"; "globals"; "hasattr"; "hash"; "help"; "hex"; "id"; "input";
   "int"; "isinstance"; "issubclass"; "iter"; "len"; "list"; "locals";
   "map"; "max"; "memoryview"; "min"; "next"; "object"; "oct"; "open";
   "ord"; "pow"; "print"; "property"; "quit"; "range"; "repr"; "reversed";
   "round"; "set"; "setattr"; "slice"; "sorted"; "staticmethod"; "str";
   "sum"; "super"; "tuple"; "type"; "vars"; "zip"].

(** Evaluating the global name [f] in the module: the module's globals,
    then the builtins. *)
Definition resolve_name (f : string) : Outcome unit :=
  if existsb (String.eqb f) (module_names ++ builtin_names)
  then Returned tt
  else Raised (NameError ("name '" +:+ f +:+ "' is not defined")).

(** The statements [api_key = os.getenv('OPENAI_API_KEY')] and
    [if not api_key: alert('jj'); logger.warning(..)]. *)
Definition read_api_key (environ : gmap string string)
    : Outcome (option string) * list (level * string) :=
  let api_key := environ !! "OPENAI_API_KEY" in
  if negb (Py.truthy_opt api_key) then
    match resolve_name "alert" with
    | Raised e => (Raised e, [])
    | Returned _ =>
        (Returned api_key,
         [(WARNING, "OPENAI_API_KEY environment variable not set. GPT chat functionality will not work.")])
    end
  else (Returned api_key, []).

(** [DEFAULT_CONFIG] as the module first sets it, and the [config] its
    last statement passes to [configure_logging]. *)
Definition initial_config : Config := mkConfig 1 30 3.
Definition configured_config : Config := mkConfig (1 # 4) 7 5.

(** Importing the module: the statements of its top level, in order. The
    result holds the module's globals and [api_rate_limiter]; the log is
    returned oldest record first. *)
Definition load_module (environ : gmap string string) (r : catalog_resource)
    : Outcome (Module * option RateLimiter) * list (level * string) :=
  let (TESTERS, loaded) := load_testers r in
  let api_rate_limiter := Limiter.init (api_rate_limit initial_config) in
  match read_api_key environ with
  | (Raised e, records) => (Raised e, loaded :: records)
  | (Returned api_key, records) =>
      (Returned (mkModule TESTERS configured_config api_key, api_rate_limiter),
       loaded :: records)
  end.

End Load.

(** ** Vocabulary of the statements *)

(** The environment never lets a negative amount of time pass. *)
Definition lags_nonneg (w : World) : Prop := Forall (λ d, (0 <= d)%Q) (w_lags w).

(** [kept P l l']: [l'] holds exactly the entries of [l] that satisfy [P],
    in the order and with the multiplicity they have in [l]. *)
Inductive kept {A} (P : A → Prop) : list A → list A → Prop :=
| kept_nil : kept P [] []
| kept_keep x l l' : P x → kept P l l' → kept P (x :: l) (x :: l')
| kept_drop x l l' : ¬ P x → kept P l l' → kept P (x :: l) l'.

(** [r] is an error-shaped result for the exception [e]. *)
Definition error_result (e : exn) (r : CheckResult) : Prop :=
  cr_bugs r = [] ∧ cr_raw_response r = Check.error_payload e.

(** ** A sample installation, for concrete runs *)

Module Sample.

(** Stand-ins for the library functions: a clock that prints the second
    of 2025-01-01 12:00 it is read in, an encoder that copies its input,
    and a codec that writes values compactly and reads back two texts,
    the empty array and the array that holds [null]. *)
Definition two_digits (n : Z) : string :=
  if (n <? 10)%Z then "0" +:+ pretty n else pretty n.

Definition compact (t : Q) : string :=
  "20250101_1200" +:+ two_digits ((Qnum t / Z.pos (Qden t)) `mod` 60)%Z.

Definition human (t : Q) : string :=
  "2025-01-01 12:00:" +:+ two_digits ((Qnum t / Z.pos (Qden t)) `mod` 60)%Z.

Definition join (sep : string) (parts : list string) : string :=
  match parts with
  | [] => EmptyString
  | p :: ps => p +:+ fold_right (λ x acc, sep +:+ x +:+ acc) EmptyString ps
  end.

Fixpoint dumps (v : json) : string :=
  match v with
  | JNull => "null"
  | JBool b => if b then "true" else "false"
  | JNum q => pretty (Qnum q) +:+ "/" +:+ pretty (Z.pos (Qden q))
  | JStr s => Str.dq +:+ s +:+ Str.dq
  | JArr items => "[" +:+ join ", " (map dumps items) +:+ "]"
  | JObj fields =>
      "{" +:+ join ", " (map (λ kv, Str.dq +:+ fst kv +:+ Str.dq +:+ ": " +:+ dumps (snd kv))
                             fields) +:+ "}"
  end.

Definition loads (s : string) : option json :=
  if String.eqb s "[]" then Some (JArr [])
  else if String.eqb s "[null]" then Some (JArr [JNull])
  else None.

Definition lib : PyLib := mkPyLib compact human id loads dumps.

Definition jason : Tester := mkTester "Jason" "Founder and generalist tester".
Definition alice : Tester := mkTester "Alice" "Accessibility specialist".

(** The module as it is loaded with a key in the environment, but with
    [max_retries] at 3. *)
Definition module : Module := mkModule [jason; alice] (mkConfig (1 # 4) 7 3) (Some "sk-test").

(** A page whose screenshot and text are available. *)
Definition page : Driver := mkDriver (Some "PNG") "https://example.com" (Some "Example Domain").

(** An endpoint that cannot be reached. *)
Definition unreachable : nat → http_outcome := λ _, ConnectFailed "Connection refused".

(** An endpoint that answers every request with an empty list of issues. *)
Definition answering : nat → http_outcome := λ _,
  Response 200 (Some (JObj [("choices",
    JArr [JObj [("message", JObj [("content", JStr "[]")])]])])).

(** An empty file system on which everything may be written, a clock at
    noon that advances by one second at each of its first operations. *)
Definition world (endpoint : nat → http_outcome) : World :=
  mkWorld ∅ (λ _, false) 0 [1; 1; 1; 1; 1; 1; 1; 1]%Q [] [] [] endpoint
          (mkRateLimiter 1 0) Unbound.

(** The same world with one file in it. *)
Definition world_with (path content : string) (endpoint : nat → http_outcome) : World :=
  set_fs (insert path content) (world endpoint).

(** The same world, on which [path] cannot be written. *)
Definition world_denying (path : string) (endpoint : nat → http_outcome) : World :=
  mkWorld ∅ (String.eqb path) 0 [1; 1; 1; 1; 1; 1; 1; 1]%Q [] [] [] endpoint
          (mkRateLimiter 1 0) Unbound.

(** [check()] with its default arguments. *)
Definition default_args : CheckArgs :=
  mkCheckArgs None None None Prompt.default_output None None 30000 true
              (Some "ai_check_results").

End Sample.

(** [c] leaves the part [proj] of the world as it finds it, however it
    ends. *)
Definition keeps {S A} (proj : World → S) (c : M A) : Prop :=
  ∀ w, proj (c w).2 = proj w.

(** A part of the world that the clock, the log, the record of sleeps and
    requests, and the rate limiter are no part of. *)
Record framed {S} (proj : World → S) : Prop := mkFramed {
  framed_time : ∀ c lags w, proj (set_time c lags w) = proj w;
  framed_slept : ∀ d w, proj (add_slept d w) = proj w;
  framed_log : ∀ r w, proj (add_log r w) = proj w;
  framed_request : ∀ r w, proj (add_request r w) = proj w;
  framed_limiter : ∀ rl w, proj (set_limiter rl w) = proj w;
}.

(** [c] raises, and leaves the local variable [output_file_path] as it
    finds it. *)
Definition fails_keeping {A} (c : M A) : Prop :=
  ∀ w, ∃ e, (c w).1 = Raised e ∧ w_output_file_path (c w).2 = w_output_file_path w.

(** * Further code of the two modules *)

(** ** Vocabulary of the further statements *)

(** [s] holds no Markdown fence. *)
Definition fence_free (s : string) : Prop := ¬ Str.is_substring Vision.fence s.

(** ** [gptchat] *)

Module Chat.

(** [gptchat(prompt, add_time=True)]. The payload has a text part only:
    the request is recorded with an empty image URL. Nothing is caught:
    whatever the body raises reaches the caller. *)
Definition gptchat (lib : PyLib) (m : Module) (prompt : string)
    (add_time : bool) : M string :=
  raise_if (negb (Py.truthy_opt (api_key m)))
    (RuntimeError
       "OPENAI_API_KEY environment variable must be set to use GPT chat functionality");;
  prompt ← (if add_time
            then now ← clock_read;
                 mret ("Current time: " +:+ stamp_human lib now +:+ Str.nl +:+ prompt)
            else mret prompt);
  response ← Vision.requests_post
    (mkRequest prompt EmptyString ("Bearer " +:+ default EmptyString (api_key m)));
  resp ← Vision.response_json response.2;
  choices ← Py.getitem_key resp "choices";
  zero ← Py.getitem_first choices;
  msg ← Py.getitem_key zero "message";
  content ← Py.getitem_key msg "content";
  match content with
  | JStr content => mret (Vision.strip_fences content)
  | _ => raise (TypeError "expected string or bytes-like object")
  end.

End Chat.

(** The statements of [chat_vision] that follow [requests.post]: the
    status check, the walk through the response and the decoding of its
    content. *)
Definition after_post (lib : PyLib) (response : Z * option json) : M json :=
  Vision.raise_for_status response.1;;
  resp ← Vision.response_json response.2;
  choices ← Py.getitem_key resp "choices";
  zero ← Py.getitem_first choices;
  msg ← Py.getitem_key zero "message";
  content ← Py.getitem_key msg "content";
  match content with
  | JStr content =>
      match json_loads lib (Vision.strip_fences content) with
      | Some ret => mret ret
      | None => raise (JSONDecodeError "Expecting value")
      end
  | _ => raise (TypeError "expected string or bytes-like object")
  end.

(** The request [chat_vision] sends for a prompt text and an image. *)
Definition vision_request (m : Module) (text base64_image : string) : request :=
  mkRequest text ("data:image/jpeg;base64," +:+ base64_image)
            ("Bearer " +:+ default EmptyString (api_key m)).

(** [chat_vision] gets as far as sending its request: the key, the image
    and the prompt are all there. *)
Definition sendable (m : Module) (prompt base64_image : string) : bool :=
  Py.truthy_opt (api_key m) && Str.truthy base64_image && Str.truthy prompt.

(** ** Arguments of [check] that differ in the timeout and the rules only *)

(** [custom_rules] passes the validation of [check]: [None] or a dict. *)
Definition accepted_rules (custom_rules : option json) : bool :=
  match custom_rules with
  | None | Some (JObj _) => true
  | Some _ => false
  end.

(** [a] and [a'] agree on every argument but [timeout] and
    [custom_rules]. *)
Definition same_analysis (a a' : CheckArgs) : Prop :=
  profile_search a = profile_search a'
  ∧ custom_prompt a = custom_prompt a'
  ∧ output a = output a'
  ∧ testers a = testers a'
  ∧ label a = label a'
  ∧ save_to_file a = save_to_file a'
  ∧ output_dir a = output_dir a'.

(** ** What an analysis costs *)

(** The requests sent and the sleeps taken. *)
Definition cost (w : World) : list request * list Q := (w_requests w, w_slept w).

(** ** A codec for the report *)

Module Saved.

(** A codec as [Sample.lib], which also reads back the text it writes
    for the document [doc]. *)
Definition loads (doc : json) (s : string) : option json :=
  if String.eqb s (Sample.dumps doc) then Some doc else Sample.loads s.

Definition lib (doc : json) : PyLib :=
  mkPyLib Sample.compact Sample.human id (loads doc) Sample.dumps.

(** The record of a check of [Sample.page] by Jason, with no issue. *)
Definition record : json :=
  Check.check_record "20250101_120001" "https://example.com"
    "screenshots/check_20250101_120001.png" [Check.finding Sample.jason (JArr [])].

End Saved.

(** ** The rate limiter in floating point *)

Module Rounded.


(** [RateLimiter.wait], with the subtraction its two [-] stand for as a
    parameter; [Limiter.wait] is the instance with the exact difference. *)
Definition wait (sub : Q → Q → Q) (self : RateLimiter) : M RateLimiter :=
  now ← clock_read;
  let elapsed := sub now (last_call self) in
  (if Qlt_le_dec elapsed (min_interval self)
   then time_sleep (sub (min_interval self) elapsed)
   else mret tt);;
  t ← clock_read;
  mret (mkRateLimiter (min_interval self) t).

(** [n] calls of [wait] in a row by one caller; the clock readings
    stored in [last_call] at the end of each call, in order. *)
Fixpoint waits (sub : Q → Q → Q) (n : nat) (self : RateLimiter) : M (list Q) :=
  match n with
  | O => mret []
  | S n' =>
      self' ← wait sub self;
      rest ← waits sub n' self';
      mret (last_call self' :: rest)
  end.

End Rounded.

(** * Theorems *)

#[local] Arguments String.append : simpl nomatch.

(** ** The rate limiter *)

Lemma clock_read_spec (w : World) :
  lags_nonneg w →
  ∃ t w', clock_read w = (Returned t, w') ∧ w_clock w' = t ∧ (w_clock w <= t)%Q
          ∧ lags_nonneg w'.
Proof.
  unfold lags_nonneg, clock_read. intros Hl.
  destruct (w_lags w) as [|d lags] eqn:E.
  - exists (w_clock w), w. split; [reflexivity|]. split; [reflexivity|].
    split; [lra|]. rewrite E. constructor.
  - inversion Hl as [|? ? Hd Hlags]; subst. cbv beta in Hd.
    eexists _, _. split; [reflexivity|]. simpl. split; [reflexivity|].
    split; [lra|assumption].
Qed.

Lemma time_sleep_spec (d : Q) (w : World) :
  (0 <= d)%Q → lags_nonneg w →
  ∃ w', time_sleep d w = (Returned tt, w') ∧ (w_clock w + d <= w_clock w')%Q
        ∧ lags_nonneg w'.
Proof.
  unfold lags_nonneg, time_sleep. intros Hd Hl.
  destruct (Qlt_le_dec d 0) as [Hneg|_]; [lra|].
  simpl. destruct (w_lags w) as [|o lags] eqn:E.
  - eexists. split; [reflexivity|]. simpl. split; [lra|constructor].
  - inversion Hl as [|? ? Ho Hlags]; subst. cbv beta in Ho.
    eexists. split; [reflexivity|]. simpl. split; [lra|assumption].
Qed.

(** One call of [wait]: it returns, keeps the interval, stores the clock
    reading it ends with, and that reading is at least [min_interval]
    after the reading stored by the previous call. *)
Lemma wait_spec (self : RateLimiter) (w : World) :
  lags_nonneg w →
  ∃ self' w', Limiter.wait self w = (Returned self', w')
    ∧ min_interval self' = min_interval self
    ∧ (last_call self + min_interval self <= last_call self')%Q
    ∧ lags_nonneg w'.
Proof.
  intros Hl. unfold Limiter.wait.
  destruct (clock_read_spec w Hl) as (now & w1 & E1 & Hc1 & Hle1 & Hl1).
  unfold mbind, M_bind at 1. rewrite E1.
  destruct (Qlt_le_dec (now - last_call self) (min_interval self)) as [Hlt|Hge].
  - destruct (time_sleep_spec (min_interval self - (now - last_call self)) w1)
      as (w2 & E2 & Hc2 & Hl2); [lra|done|].
    unfold mbind, M_bind at 1. rewrite E2.
    destruct (clock_read_spec w2 Hl2) as (t & w3 & E3 & Hc3 & Hle3 & Hl3).
    unfold mbind, M_bind. rewrite E3.
    eexists _, _. split; [reflexivity|]. simpl. repeat split; auto.
    rewrite <- Hc1 in *. lra.
  - destruct (clock_read_spec w1 Hl1) as (t & w3 & E3 & Hc3 & Hle3 & Hl3).
    unfold mbind, M_bind, mret, M_ret. rewrite E3.
    eexists _, _. split; [reflexivity|]. simpl. repeat split; auto.
    rewrite <- Hc1 in *. lra.
Qed.

Lemma waits_spec (n : nat) : ∀ (self : RateLimiter) (w : World),
  lags_nonneg w →
  ∃ ts w', Limiter.waits n self w = (Returned ts, w')
    ∧ length ts = n
    ∧ Limiter.separated (min_interval self) (last_call self :: ts).
Proof.
  induction n as [|n IH]; intros self w Hl.
  - exists [], w. repeat split; done.
  - destruct (wait_spec self w Hl) as (self' & w1 & E1 & Hmin & Hsep & Hl1).
    destruct (IH self' w1 Hl1) as (ts & w2 & E2 & Hlen & Hs).
    exists (last_call self' :: ts), w2. cbn [Limiter.waits].
    unfold mbind, M_bind, mret, M_ret. rewrite E1, E2.
    split; [done|]. split; [simpl; lia|].
    rewrite Hmin in Hs. split; [exact Hsep|exact Hs].
Qed.


Lemma wait_is_rounded (self : RateLimiter) :
  Limiter.wait self = Rounded.wait Qminus self.
Proof. reflexivity. Qed.






(** ** Strings *)

Lemma str_app_assoc (a b c : string) : (a +:+ b) +:+ c = a +:+ b +:+ c.
Proof. induction a as [|x a IH]; simpl; [done|by f_equal]. Qed.

Lemma str_app_nil_r (a : string) : a +:+ EmptyString = a.
Proof. induction a as [|x a IH]; simpl; [done|by f_equal]. Qed.

Lemma prefix_spec (p s : string) : String.prefix p s = true ↔ Str.is_prefix p s.
Proof.
  unfold Str.is_prefix. revert s.
  induction p as [|x p IH]; intros s.
  - destruct s; simpl; (split; [intros _; by eexists|done]).
  - destruct s as [|y s]; simpl.
    + split; [done|intros [post H]; discriminate].
    + destruct (ascii_dec x y) as [->|Hne].
      * rewrite IH. split; intros [post H]; exists post; simpl in *; congruence.
      * split; [done|intros [post H]; simpl in H; congruence].
Qed.

Lemma contains_spec (needle hay : string) :
  Str.contains needle hay = true ↔ Str.is_substring needle hay.
Proof.
  unfold Str.is_substring.
  induction hay as [|y hay IH]; cbn [Str.contains];
    rewrite orb_true_iff, prefix_spec; unfold Str.is_prefix.
  - split.
    + intros [[post H]|H]; [|done]. by exists EmptyString, post.
    + intros (pre & post & H). left.
      destruct pre; simpl in H; [by exists post|discriminate].
  - rewrite IH. split.
    + intros [[post H]|(pre & post & H)].
      * by exists EmptyString, post.
      * exists (String y pre), post. simpl. by rewrite H.
    + intros (pre & post & H). destruct pre as [|x pre]; simpl in H.
      * left. by exists post.
      * right. injection H as _ H. by exists pre, post.
Qed.

Lemma substring_here (pre needle post : string) :
  Str.is_substring needle (pre +:+ needle +:+ post).
Proof. by exists pre, post. Qed.

Lemma substring_later (a needle hay : string) :
  Str.is_substring needle hay → Str.is_substring needle (a +:+ hay).
Proof.
  intros (pre & post & ->). exists (a +:+ pre), post.
  symmetry. apply str_app_assoc.
Qed.

(** ** Tester selection *)

Lemma filter_kept {A} (f : A → bool) (P : A → Prop) (l : list A) :
  (∀ x, f x = true ↔ P x) → kept P l (List.filter f l).
Proof.
  intros Hf. induction l as [|x l IH]; simpl; [constructor|].
  destruct (f x) eqn:E.
  - apply kept_keep; [by apply Hf|done].
  - apply kept_drop; [|done]. rewrite <- Hf. congruence.
Qed.

Lemma is_jason_spec (t : Tester) : Registry.is_jason t = true ↔ Registry.named_jason t.
Proof. unfold Registry.is_jason, Registry.named_jason. apply String.eqb_eq. Qed.

Lemma matches_any_spec (requested : list string) (t : Tester) :
  Registry.matches_any requested t = true ↔ Registry.requested_match requested t.
Proof.
  unfold Registry.matches_any, Registry.requested_match.
  rewrite existsb_exists. split.
  - intros (r & Hin & Hc). exists r. split; [by apply list_elem_of_In|by apply contains_spec].
  - intros (r & Hin & Hc). exists r. split; [by apply list_elem_of_In|by apply contains_spec].
Qed.

Lemma filter_nil_none {A} (f : A → bool) (l : list A) :
  List.filter f l = [] ↔ ∀ x, x ∈ l → f x = false.
Proof.
  induction l as [|x l IH]; simpl.
  - split; [intros _ y Hy; by apply elem_of_nil in Hy|done].
  - destruct (f x) eqn:E.
    + split; [done|]. intros H. specialize (H x (list_elem_of_here _ _)). congruence.
    + rewrite IH. split.
      * intros H y [->|Hy]%elem_of_cons; auto.
      * intros H y Hy. apply H. by apply list_elem_of_further.
Qed.

(** C5. Selection with no list given keeps exactly the testers named
    "jason" up to case (none for the empty catalog); with a list of names
    given, every catalog tester whose lowered name contains a lowered
    requested name is returned, and as soon as one tester matches, the
    result holds exactly the matching testers, in catalog order; on the
    catalog Jason, Alice both ["alice"] and ["ALICE", "bob"] select exactly
    Alice. *)
Theorem C5_tester_selection (cat : list Tester) :
  kept Registry.named_jason cat (Registry.select_testers cat None)
  ∧ Registry.select_testers [] None = []
  ∧ (∀ requested t, t ∈ cat → Registry.requested_match requested t →
       t ∈ Registry.select_testers cat (Some requested))
  ∧ (∀ requested,
       (∃ t, t ∈ cat ∧ Registry.requested_match requested t) →
       kept (Registry.requested_match requested) cat
            (Registry.select_testers cat (Some requested)))
  ∧ (∀ bj ba,
       Registry.select_testers [mkTester "Jason" bj; mkTester "Alice" ba]
                               (Some ["alice"]) = [mkTester "Alice" ba]
       ∧ Registry.select_testers [mkTester "Jason" bj; mkTester "Alice" ba]
                                 (Some ["ALICE"; "bob"]) = [mkTester "Alice" ba]).
Proof.
  assert (Hsome : ∀ requested,
    (∃ t, t ∈ cat ∧ Registry.requested_match requested t) →
    Registry.select_testers cat (Some requested)
    = List.filter (Registry.matches_any requested) cat).
  { intros requested (t & Hin & Hm).
    unfold Registry.select_testers, Registry.select_testers_logged.
    destruct (List.filter (Registry.matches_any requested) cat) eqn:E; [|done].
    apply filter_nil_none with (x := t) in E; [|done].
    apply matches_any_spec in Hm. congruence. }
  split; [|split; [|split; [|split]]].
  - apply filter_kept, is_jason_spec.
  - reflexivity.
  - intros requested t Hin Hm. rewrite Hsome by eauto.
    apply list_elem_of_In, filter_In. split; [by apply list_elem_of_In|].
    by apply matches_any_spec.
  - intros requested Hex. rewrite Hsome by done.
    apply filter_kept, matches_any_spec.
  - intros bj ba. split; reflexivity.
Qed.

(** C6, the claim as stated fails: a catalog that is not empty and holds no
    tester named "jason" yields an empty selection for a name that matches
    nothing. *)
Lemma C6_counterexample :
  [mkTester "Alice" "Accessibility specialist"] ≠ []
  ∧ Registry.select_testers [mkTester "Alice" "Accessibility specialist"]
                            (Some ["bob"]) = [].
Proof. split; [discriminate|reflexivity]. Qed.

(** C6, amended. On a catalog that holds a tester named "jason" up to case,
    selection never returns the empty list, whatever is requested; and when
    the requested names match no catalog entry, the result is exactly the
    testers named "jason" and the fallback warning is logged. *)
Theorem C6_selection_nonempty_with_jason (cat : list Tester)
    (testers : option (list string)) :
  (∃ t, t ∈ cat ∧ Registry.named_jason t) →
  Registry.select_testers cat testers ≠ []
  ∧ (∀ requested, testers = Some requested →
       (∀ t, t ∈ cat → ¬ Registry.requested_match requested t) →
       ∃ jasons, Registry.select_testers_logged cat testers = (jasons, true)
                 ∧ kept Registry.named_jason cat jasons).
Proof.
  intros (j & Hj & Hname).
  assert (Hjason : List.filter Registry.is_jason cat ≠ []).
  { intros E. apply filter_nil_none with (x := j) in E; [|done].
    apply is_jason_spec in Hname. congruence. }
  split.
  - unfold Registry.select_testers, Registry.select_testers_logged.
    destruct testers as [requested|]; [|done].
    destruct (List.filter (Registry.matches_any requested) cat) eqn:E; simpl; done.
  - intros requested -> Hnone.
    exists (List.filter Registry.is_jason cat). split.
    + unfold Registry.select_testers_logged.
      assert (E : List.filter (Registry.matches_any requested) cat = []).
      { apply filter_nil_none. intros t Ht.
        destruct (Registry.matches_any requested t) eqn:Em; [|done].
        apply matches_any_spec in Em. by destruct (Hnone t Ht). }
      by rewrite E.
    + apply filter_kept, is_jason_spec.
Qed.

(** A catalog and a request the hypothesis of C6 holds for. *)
Lemma C6_selection_witness :
  Registry.select_testers [mkTester "Jason" "founder"; mkTester "Alice" "a11y"]
                          (Some ["nonexistent"]) ≠ [].
Proof.
  apply (C6_selection_nonempty_with_jason
           [mkTester "Jason" "founder"; mkTester "Alice" "a11y"] (Some ["nonexistent"])).
  exists (mkTester "Jason" "founder"). split; [apply list_elem_of_here|reflexivity].
Defined.

(** ** The vision prompt *)

Lemma custom_tail_some (c : string) : Prompt.custom_tail (Some c) = c.
Proof. by destruct c. Qed.

(** C8. The prompt built for a tester contains the page URL, the page text,
    the tester's name and the tester's biography as substrings, and a
    supplied custom prompt is appended to the prompt built without one,
    unchanged, so that the prompt ends with it. *)
Theorem C8_prompt_contents (url page_text output : string) (tester : Tester)
    (custom_prompt : option string) :
  let p := Prompt.vision_prompt url page_text tester output custom_prompt in
  Str.is_substring url p
  ∧ Str.is_substring page_text p
  ∧ Str.is_substring (name tester) p
  ∧ Str.is_substring (biography tester) p
  ∧ (∀ c, custom_prompt = Some c →
       p = Prompt.vision_prompt url page_text tester output None +:+ c
       ∧ Str.is_suffix c p).
Proof.
  cbv zeta. unfold Prompt.vision_prompt.
  split; [|split; [|split; [|split]]].
  - apply substring_here.
  - do 2 apply substring_later. apply substring_here.
  - do 4 apply substring_later. apply substring_here.
  - do 6 apply substring_later. apply substring_here.
  - intros c ->. rewrite custom_tail_some. unfold Prompt.custom_tail.
    split.
    + rewrite !str_app_assoc. reflexivity.
    + eexists. rewrite <- !str_app_assoc. reflexivity.
Qed.

(** ** The monad *)

Lemma bind_run {A B} (c : M A) (f : A → M B) (w : World) :
  (c ≫= f) w = match c w with
               | (Returned a, w') => f a w'
               | (Raised e, w') => (Raised e, w')
               end.
Proof. reflexivity. Qed.

Lemma bind_returned {A B} (c : M A) (f : A → M B) (w w' : World) (b : B) :
  (c ≫= f) w = (Returned b, w') →
  ∃ a w1, c w = (Returned a, w1) ∧ f a w1 = (Returned b, w').
Proof.
  rewrite bind_run. destruct (c w) as [[a|e] w1]; [eauto|discriminate].
Qed.

(** ** [chat_vision] *)

(** C3, the claim as stated fails: called with an empty prompt,
    [chat_vision] returns to its caller, and what it returns is the string
    ["[]"]. *)
Lemma C3_counterexample :
  (Vision.chat_vision Sample.lib Sample.module EmptyString "aGVsbG8=" true
                      (Sample.world Sample.answering)).1
  = Returned (JStr "[]").
Proof. reflexivity. Qed.

(** C3, amended. Called with an empty prompt or an empty image,
    [chat_vision] raises inside its own [try] block, before any request is
    sent: the validation error, or the missing-credential error, which is
    checked first. Its handler catches the exception, logs it and returns
    the string ["[]"] to the caller; no request is made. *)
Theorem C3_empty_input_falls_back (lib : PyLib) (m : Module)
    (prompt base64_image : string) (add_time : bool) (w : World) :
  prompt = EmptyString ∨ base64_image = EmptyString →
  (∃ e, Vision.chat_vision_try lib m prompt base64_image add_time w = (Raised e, w)
        ∧ (e = ValueError "prompt cannot be empty"
           ∨ e = ValueError "base64_image cannot be empty"
           ∨ e = RuntimeError "OPENAI_API_KEY environment variable must be set"))
  ∧ ∃ w', Vision.chat_vision lib m prompt base64_image add_time w
          = (Returned (JStr "[]"), w')
        ∧ w_requests w' = w_requests w
        ∧ w_log w' = (ERROR, "Error in chat_vision") :: w_log w.
Proof.
  intros Hempty.
  assert (H : ∃ e, Vision.chat_vision_try lib m prompt base64_image add_time w
                   = (Raised e, w)
                 ∧ (e = ValueError "prompt cannot be empty"
                    ∨ e = ValueError "base64_image cannot be empty"
                    ∨ e = RuntimeError "OPENAI_API_KEY environment variable must be set")).
  { unfold Vision.chat_vision_try. rewrite bind_run.
    destruct (Py.truthy_opt (api_key m)); simpl; [|eauto].
    rewrite bind_run. destruct base64_image as [|c img]; simpl; [eauto|].
    rewrite bind_run. destruct Hempty as [->|?]; [|done]. simpl. eauto. }
  split; [exact H|].
  destruct H as (e & Htry & He).
  exists (add_log (ERROR, "Error in chat_vision") w).
  unfold Vision.chat_vision, try_except. rewrite Htry.
  by destruct He as [->|[->| ->]].
Qed.

(** A call the hypothesis of C3 holds for. *)
Lemma C3_empty_input_witness :
  ∃ w', Vision.chat_vision Sample.lib Sample.module "Describe the page" EmptyString true
                           (Sample.world Sample.answering)
        = (Returned (JStr "[]"), w')
      ∧ w_requests w' = w_requests (Sample.world Sample.answering)
      ∧ w_log w' = (ERROR, "Error in chat_vision") :: w_log (Sample.world Sample.answering).
Proof.
  apply (C3_empty_input_falls_back Sample.lib Sample.module "Describe the page"
           EmptyString true (Sample.world Sample.answering)).
  right. reflexivity.
Defined.

(** ** The retry loop *)

Lemma world_eta (w : World) : set_time (w_clock w) (w_lags w) w = w.
Proof. by destruct w. Qed.

(** A reading of the clock returns and changes the time only. *)
Lemma clock_read_run (w : World) :
  ∃ t lags, clock_read w = (Returned t, set_time t lags w).
Proof.
  unfold clock_read. destruct (w_lags w) as [|d lags] eqn:El.
  - exists (w_clock w), []. by rewrite <- El, world_eta.
  - eauto.
Qed.

(** Unfolding one bind, and running the steps that do not depend on the
    world. *)
Ltac msimpl :=
  repeat progress
    (try rewrite !bind_run;
     cbn [mret M_ret raise raise_if modify get log negb fst snd]).

(** One call of [chat_vision] against an endpoint that cannot be reached:
    the request is sent, the connection error is caught inside
    [chat_vision], and the string ["[]"] is returned. *)
Lemma chat_vision_unreachable (lib : PyLib) (m : Module)
    (prompt base64_image : string) (w : World) (msg : string) :
  Py.truthy_opt (api_key m) = true →
  Str.truthy prompt = true →
  Str.truthy base64_image = true →
  (∀ n, w_endpoint w n = ConnectFailed msg) →
  ∃ w', Vision.chat_vision lib m prompt base64_image true w = (Returned (JStr "[]"), w')
      ∧ length (w_requests w') = S (length (w_requests w))
      ∧ w_slept w' = w_slept w
      ∧ w_log w' = (ERROR, "API request failed") :: w_log w.
Proof.
  intros Hkey Hp Hi Hnet.
  unfold Vision.chat_vision, try_except, Vision.chat_vision_try.
  rewrite Hkey, Hp, Hi. msimpl.
  destruct (clock_read_run w) as (t & lags & ->). msimpl.
  unfold Vision.requests_post. cbn [w_endpoint set_time w_requests].
  rewrite Hnet. cbn [is_request_exception]. msimpl.
  eexists. split; [reflexivity|]. by cbn.
Qed.

(** A sleep of a non-negative length returns; it changes the time and the
    record of sleeps only. *)
Lemma time_sleep_run (d : Q) (w : World) :
  (0 <= d)%Q → ∃ c lags, time_sleep d w = (Returned tt, set_time c lags (add_slept d w)).
Proof.
  intros Hd. unfold time_sleep.
  destruct (Qlt_le_dec d 0) as [Hneg|_]; [lra|].
  cbn [w_lags add_slept]. destruct (w_lags w); eauto.
Qed.

(** The loop alone does what its comment says: when every attempt of
    [analyze] raises, three attempts are made, two of them followed by a
    sleep of two seconds, and the last exception leaves the loop. *)
Lemma retry_loop_exhausts (r : request) (e : exn) (w : World) :
  ∃ w', Check.retry_loop (modify (add_request r);; raise e) 3 w = (Raised e, w')
      ∧ w_requests w' = r :: r :: r :: w_requests w
      ∧ w_slept w' = 2%Q :: 2%Q :: w_slept w.
Proof.
  assert (H2 : (0 <= 2)%Q) by lra.
  unfold Check.retry_loop, try_except. msimpl.
  destruct (time_sleep_run 2 (add_log (WARNING, "API call failed, retrying...")
                                      (add_request r w)) H2) as (c1 & l1 & ->).
  msimpl.
  match goal with |- context [time_sleep 2 ?w1] =>
    destruct (time_sleep_run 2 w1 H2) as (c2 & l2 & ->) end.
  msimpl. eexists. split; [reflexivity|]. by cbn.
Qed.

(** C4, evaluated on the code. With an endpoint that cannot be reached and
    [max_retries] at 3, the retry loop of [check] calls [chat_vision] once:
    exactly one request is sent, nothing is slept, no exception leaves the
    loop, and the tester's response is the string ["[]"]. *)
Theorem C4_unreachable_endpoint_is_not_retried (lib : PyLib) (m : Module)
    (prompt base64_image : string) (w : World) (msg : string) :
  Py.truthy_opt (api_key m) = true →
  Str.truthy prompt = true →
  Str.truthy base64_image = true →
  max_retries (DEFAULT_CONFIG m) = 3%Z →
  (∀ n, w_endpoint w n = ConnectFailed msg) →
  ∃ w', Check.retry_loop (Vision.chat_vision lib m prompt base64_image true)
                         (Z.to_nat (max_retries (DEFAULT_CONFIG m))) w
        = (Returned (Some (JStr "[]")), w')
      ∧ length (w_requests w') = S (length (w_requests w))
      ∧ w_slept w' = w_slept w.
Proof.
  intros Hkey Hp Hi Hmax Hnet. rewrite Hmax.
  destruct (chat_vision_unreachable lib m prompt base64_image w msg Hkey Hp Hi Hnet)
    as (w' & Hcall & Hreq & Hslept & _).
  exists w'. change (Z.to_nat 3) with 3%nat.
  unfold Check.retry_loop, try_except. rewrite bind_run, Hcall. auto.
Qed.

(** The whole of [check] against that endpoint: one request, no sleep, a
    result without bugs whose record holds the string ["[]"] as the
    tester's issues. *)
Example check_against_unreachable_endpoint :
  ∃ r w', Check.check Check.Selenium Sample.lib Sample.module Sample.page
            Sample.default_args (Sample.world Sample.unreachable) = (Returned r, w')
        ∧ length (w_requests w') = 1
        ∧ w_slept w' = []
        ∧ cr_bugs r = []
        ∧ Py.assoc "testers_results" (match cr_raw_response r with
                                      | JObj fields => fields
                                      | _ => []
                                      end)
          = Some (JArr [Check.finding Sample.jason (JStr "[]")]).
Proof. eexists _, _. split; [vm_compute; reflexivity|]. by vm_compute. Qed.

(** A run the hypotheses of C4 hold for. *)
Lemma C4_unreachable_endpoint_witness :
  ∃ w', Check.retry_loop
          (Vision.chat_vision Sample.lib Sample.module "Describe the page" "aGVsbG8=" true)
          (Z.to_nat (max_retries (DEFAULT_CONFIG Sample.module)))
          (Sample.world Sample.unreachable)
        = (Returned (Some (JStr "[]")), w')
      ∧ length (w_requests w') = S (length (w_requests (Sample.world Sample.unreachable)))
      ∧ w_slept w' = w_slept (Sample.world Sample.unreachable).
Proof.
  apply (C4_unreachable_endpoint_is_not_retried Sample.lib Sample.module
           "Describe the page" "aGVsbG8=" (Sample.world Sample.unreachable)
           "Connection refused"); reflexivity.
Defined.

(** ** Loading the module *)

(** C7, evaluated on the code. With no API key in the environment (the
    variable unset, or set to the empty string), importing the module
    raises [NameError] at the call of the undefined name [alert]: no
    module is produced, and the warning about the key is never logged. *)
Theorem C7_load_without_key_raises (environ : gmap string string)
    (r : Load.catalog_resource) :
  Py.truthy_opt (environ !! "OPENAI_API_KEY") = false →
  Load.load_module environ r
  = (Raised (NameError "name 'alert' is not defined"), [(Load.load_testers r).2]).
Proof.
  intros Hkey. unfold Load.load_module, Load.read_api_key.
  destruct (Load.load_testers r) as [ts rec]. rewrite Hkey. reflexivity.
Qed.

(** An environment without the key. *)
Lemma C7_load_without_key_witness :
  Load.load_module ∅ (Load.Catalog [Sample.jason; Sample.alice])
  = (Raised (NameError "name 'alert' is not defined"), [(INFO, "Loaded testers")]).
Proof.
  apply (C7_load_without_key_raises ∅ (Load.Catalog [Sample.jason; Sample.alice])).
  reflexivity.
Defined.

(** With a key in the environment the module loads, and nothing is logged
    about the key. *)
Lemma load_with_key (environ : gmap string string) (r : Load.catalog_resource) :
  Py.truthy_opt (environ !! "OPENAI_API_KEY") = true →
  ∃ m rl, Load.load_module environ r = (Returned (m, rl), [(Load.load_testers r).2])
        ∧ api_key m = environ !! "OPENAI_API_KEY"
        ∧ TESTERS m = (Load.load_testers r).1.
Proof.
  intros Hkey. unfold Load.load_module, Load.read_api_key.
  destruct (Load.load_testers r) as [ts rec]. rewrite Hkey. simpl. eauto.
Qed.

(** ** The result files [ai_report] reads *)

Lemma strip_prefix_app (p s : string) : Fs.strip_prefix p (p +:+ s) = Some s.
Proof.
  induction p as [|c p IH]; simpl; [done|]. by rewrite Ascii.eqb_refl.
Qed.

Lemma endswith_app (p s : string) : Str.endswith p (s +:+ p) = true.
Proof.
  induction s as [|c s IH]; cbn [String.append].
  - destruct p; cbn [Str.endswith]; by rewrite String.eqb_refl.
  - cbn [Str.endswith]. rewrite IH. apply orb_true_r.
Qed.

Lemma prefix_nil (s : string) : String.prefix EmptyString s = true.
Proof. by destruct s. Qed.

Lemma contains_char_app (c : ascii) (a b : string) :
  Str.contains (String c EmptyString) (a +:+ b)
  = Str.contains (String c EmptyString) a || Str.contains (String c EmptyString) b.
Proof.
  induction a as [|x a' IH]; cbn [String.append Str.contains].
  - reflexivity.
  - rewrite IH. cbn [String.prefix]. rewrite !prefix_nil. apply orb_assoc.
Qed.

Lemma path_join_relative (dir name : string) :
  Str.startswith "/" name = false →
  Fs.path_join dir name = Fs.path_join dir EmptyString +:+ name.
Proof.
  intros Hrel. unfold Fs.path_join. rewrite Hrel.
  change (Str.startswith "/" EmptyString) with false. cbv iota.
  destruct (negb (Str.truthy dir) || Str.endswith "/" dir).
  - by rewrite str_app_nil_r.
  - by rewrite str_app_nil_r, str_app_assoc.
Qed.

Lemma child_name_join (dir name : string) :
  Str.startswith "/" name = false →
  Report.child_name dir (Fs.path_join dir name)
  = if Str.truthy name && negb (Str.contains "/" name) then Some name else None.
Proof.
  intros Hrel. unfold Report.child_name.
  by rewrite (path_join_relative dir name Hrel), strip_prefix_app.
Qed.

Lemma json_files_spec (output_dir path : string) (fs : gmap string string) :
  path ∈ Report.json_files output_dir fs ↔
  is_Some (fs !! path)
  ∧ ∃ n, Report.child_name output_dir path = Some n ∧ Report.fnmatch_ai_json n = true.
Proof.
  unfold Report.json_files. rewrite list_elem_of_In, filter_In, <- list_elem_of_In.
  rewrite list_elem_of_fmap. split.
  - intros [([p content] & -> & Hin%elem_of_map_to_list) Hm]. simpl in *.
    split; [eauto|]. destruct (Report.child_name output_dir p); [eauto|done].
  - intros [[content Hc] (n & Hn & Hm)]. split.
    + exists (path, content). split; [done|]. by apply elem_of_map_to_list.
    + by rewrite Hn.
Qed.





(** ** What a call leaves untouched *)

Lemma framed_fs : framed w_fs.
Proof. by split. Qed.

Lemma framed_output_file_path : framed w_output_file_path.
Proof. by split. Qed.

Section keeps.
Context {S : Type} (proj : World → S).

Lemma keeps_ret {A} (a : A) : keeps proj (mret a).
Proof. by intros w. Qed.

Lemma keeps_raise {A} (e : exn) : keeps proj (@raise A e).
Proof. by intros w. Qed.

Lemma keeps_get {A} (f : World → A) : keeps proj (get f).
Proof. by intros w. Qed.

Lemma keeps_bind {A B} (c : M A) (f : A → M B) :
  keeps proj c → (∀ a, keeps proj (f a)) → keeps proj (c ≫= f).
Proof.
  intros Hc Hf w. rewrite bind_run. specialize (Hc w).
  destruct (c w) as [[a|e] w1]; simpl in *; [|done]. by rewrite Hf.
Qed.

Lemma keeps_try_except {A} (c : M A) (h : exn → M A) :
  keeps proj c → (∀ e, keeps proj (h e)) → keeps proj (try_except c h).
Proof.
  intros Hc Hh w. unfold try_except. specialize (Hc w).
  destruct (c w) as [[a|e] w1]; simpl in *; [done|]. by rewrite Hh.
Qed.

Lemma keeps_try_except_only {A} (p : exn → bool) (c : M A) (h : exn → M A) :
  keeps proj c → (∀ e, keeps proj (h e)) → keeps proj (try_except_only p c h).
Proof.
  intros Hc Hh. apply keeps_try_except; [done|].
  intros e. destruct (p e); [done|apply keeps_raise].
Qed.

Lemma keeps_raise_if (c : bool) (e : exn) : keeps proj (raise_if c e).
Proof. destruct c; [apply keeps_raise|apply keeps_ret]. Qed.

Lemma keeps_makedirs (path : string) : keeps proj (Fs.makedirs path).
Proof. intros w. unfold Fs.makedirs. by destruct (w_denied w path). Qed.

Lemma keeps_read_file (path : string) : keeps proj (Fs.read_file path).
Proof. intros w. unfold Fs.read_file. by destruct (w_fs w !! path). Qed.

Lemma keeps_getitem_key (v : json) (key : string) : keeps proj (Py.getitem_key v key).
Proof.
  unfold Py.getitem_key. destruct v; try apply keeps_raise.
  destruct (Py.assoc key fields); [apply keeps_ret|apply keeps_raise].
Qed.

Lemma keeps_getitem_first (v : json) : keeps proj (Py.getitem_first v).
Proof.
  unfold Py.getitem_first.
  destruct v as [| | |[|]|[|]|]; first [apply keeps_raise|apply keeps_ret].
Qed.

Lemma keeps_body_text (self : Driver) : keeps proj (Check.body_text self).
Proof.
  unfold Check.body_text. destruct (drv_body_text self);
    [apply keeps_ret|apply keeps_raise].
Qed.

Context (Hframed : framed proj).

Lemma keeps_log (l : level) (msg : string) : keeps proj (log l msg).
Proof. intros w. apply (framed_log _ Hframed). Qed.

Lemma keeps_clock_read : keeps proj clock_read.
Proof.
  intros w. destruct (clock_read_run w) as (t & lags & ->).
  apply (framed_time _ Hframed).
Qed.

Lemma keeps_time_sleep (d : Q) : keeps proj (time_sleep d).
Proof.
  intros w. unfold time_sleep. destruct (Qlt_le_dec d 0); [done|].
  cbn [w_lags add_slept]. destruct (w_lags w); cbn [snd];
    by rewrite (framed_time _ Hframed), (framed_slept _ Hframed).
Qed.

Lemma keeps_set_limiter (rl : RateLimiter) : keeps proj (modify (set_limiter rl)).
Proof. intros w. apply (framed_limiter _ Hframed). Qed.

Lemma keeps_requests_post (r : request) : keeps proj (Vision.requests_post r).
Proof.
  intros w. unfold Vision.requests_post.
  destruct (w_endpoint w _); apply (framed_request _ Hframed).
Qed.

(** The steps the lemmas above cover, and the control flow around them. *)
Ltac keeps_step :=
  first
    [ apply keeps_bind; [|intros ?]
    | apply keeps_try_except; [|intros ?]
    | apply keeps_try_except_only; [|intros ?]
    | apply keeps_ret | apply keeps_raise | apply keeps_get | apply keeps_raise_if
    | apply keeps_makedirs | apply keeps_read_file | apply keeps_getitem_key
    | apply keeps_getitem_first | apply keeps_body_text | apply keeps_log
    | apply keeps_clock_read | apply keeps_time_sleep | apply keeps_set_limiter
    | apply keeps_requests_post
    | match goal with
      | |- keeps _ (match ?x with _ => _ end) => destruct x
      end ].

Lemma keeps_wait (self : RateLimiter) : keeps proj (Limiter.wait self).
Proof. unfold Limiter.wait. repeat keeps_step. Qed.

Lemma keeps_chat_vision (lib : PyLib) (m : Module) (prompt image : string)
    (add_time : bool) :
  keeps proj (Vision.chat_vision lib m prompt image add_time).
Proof.
  unfold Vision.chat_vision, Vision.chat_vision_try, Vision.raise_for_status,
    Vision.response_json.
  repeat keeps_step.
Qed.

Lemma keeps_retry_loop (analyze : M json) (retries : nat) :
  keeps proj analyze → keeps proj (Check.retry_loop analyze retries).
Proof.
  intros Ha. induction retries as [|n IH]; cbn [Check.retry_loop].
  - apply keeps_ret.
  - apply keeps_try_except.
    { apply keeps_bind; [exact Ha|intros v; apply keeps_ret]. }
    intros e. destruct n as [|n']; [apply keeps_raise|].
    apply keeps_bind; [apply keeps_log|intros _].
    apply keeps_bind; [apply keeps_time_sleep|intros _]. exact IH.
Qed.

Lemma keeps_analyse_testers (lib : PyLib) (m : Module)
    (url page_text image : string) (a : CheckArgs) (selected : list Tester) :
  ∀ (vision_response : local json) (all_findings : list json),
  keeps proj (Check.analyse_testers lib m url page_text image a
                                    vision_response all_findings selected).
Proof.
  induction selected as [|tester rest IH]; intros vr acc; cbn [Check.analyse_testers].
  - apply keeps_ret.
  - apply keeps_bind; [apply keeps_get|]. intros rl.
    apply keeps_bind; [apply keeps_wait|]. intros rl'.
    apply keeps_bind; [apply keeps_set_limiter|]. intros _.
    apply keeps_bind; [apply keeps_retry_loop, keeps_chat_vision|]. intros assigned.
    destruct (from_option Bound vr assigned); [apply keeps_raise|apply IH].
Qed.

Lemma keeps_collect_issues (lib : PyLib) (all_findings : list json) :
  ∀ all_issues, keeps proj (Check.collect_issues lib all_issues all_findings).
Proof.
  induction all_findings as [|x rest IH]; intros acc; cbn [Check.collect_issues].
  - apply keeps_ret.
  - apply keeps_bind; [|intros ?; apply IH]. repeat keeps_step.
Qed.

End keeps.

Lemma keeps_run {S A} (proj : World → S) (c : M A) (w w' : World) (o : Outcome A) :
  keeps proj c → c w = (o, w') → proj w' = proj w.
Proof. intros Hk Hrun. specialize (Hk w). by rewrite Hrun in Hk. Qed.

(** ** [check] and its outermost handler *)

Lemma keeps_output_file_path_write (path : option string) (content : string) :
  keeps w_output_file_path (Fs.write_file path content).
Proof.
  intros w. unfold Fs.write_file. destruct path as [p|]; [|done].
  by destruct (w_denied w p).
Qed.

Lemma keeps_output_file_path_screenshot (b : Check.binding) (self : Driver)
    (path : string) :
  keeps w_output_file_path (Check.take_screenshot b self path).
Proof.
  unfold Check.take_screenshot.
  destruct (drv_screenshot self); [|apply keeps_raise].
  destruct b; [apply keeps_output_file_path_write|].
  apply keeps_try_except_only; [apply keeps_output_file_path_write|].
  intros e. apply keeps_ret.
Qed.

Lemma fails_raise {A} (e : exn) : fails_keeping (@raise A e).
Proof. intros w. by exists e. Qed.

Lemma fails_bind_now {A B} (c : M A) (f : A → M B) :
  fails_keeping c → fails_keeping (c ≫= f).
Proof.
  intros Hc w. destruct (Hc w) as (e & He & Hk). exists e.
  rewrite bind_run. destruct (c w) as [[a|e'] w1]; simpl in *; [discriminate|].
  by injection He as ->.
Qed.

Lemma fails_bind_later {A B} (c : M A) (f : A → M B) :
  keeps w_output_file_path c → (∀ a, fails_keeping (f a)) → fails_keeping (c ≫= f).
Proof.
  intros Hc Hf w. rewrite bind_run. specialize (Hc w).
  destruct (c w) as [[a|e] w1]; simpl in *.
  - destruct (Hf a w1) as (e & He & Hk). exists e. split; [done|congruence].
  - by exists e.
Qed.

(** With [custom_rules] given and not a dict, the [try] block of [check]
    raises before it reaches the statement [output_file_path = None]. *)
Lemma check_try_fails_unbound (b : Check.binding) (lib : PyLib) (m : Module)
    (self : Driver) (a : CheckArgs) (v : json) :
  custom_rules a = Some v → (∀ fields, v ≠ JObj fields) →
  fails_keeping (Check.check_try b lib m self a).
Proof.
  intros Hrules Hv. unfold Check.check_try.
  apply fails_bind_later; [apply keeps_log, framed_output_file_path|intros _].
  apply fails_bind_later; [apply keeps_makedirs|intros _].
  apply fails_bind_later; [apply keeps_clock_read, framed_output_file_path|intros now].
  apply fails_bind_later; [apply keeps_output_file_path_screenshot|intros _].
  apply fails_bind_later; [apply keeps_read_file|intros image].
  apply fails_bind_later.
  { destruct (_ <? _)%Z; [apply keeps_log, framed_output_file_path|apply keeps_ret]. }
  intros _. apply fails_bind_now. rewrite Hrules.
  destruct v; try (apply fails_bind_later;
    [apply keeps_log, framed_output_file_path|intros _; apply fails_raise]).
  by destruct (Hv fields).
Qed.

(** So does it when the driver cannot take the screenshot. *)
Lemma check_try_fails_screenshot (b : Check.binding) (lib : PyLib) (m : Module)
    (self : Driver) (a : CheckArgs) :
  drv_screenshot self = None →
  fails_keeping (Check.check_try b lib m self a).
Proof.
  intros Hshot. unfold Check.check_try.
  apply fails_bind_later; [apply keeps_log, framed_output_file_path|intros _].
  apply fails_bind_later; [apply keeps_makedirs|intros _].
  apply fails_bind_later; [apply keeps_clock_read, framed_output_file_path|intros now].
  apply fails_bind_now. unfold Check.take_screenshot. rewrite Hshot.
  apply fails_raise.
Qed.

(** Playwright's handler, entered while [output_file_path] is unbound,
    raises instead of returning a result. *)
Lemma playwright_handler_unbound (self : Driver) (a : CheckArgs) (e : exn) (w : World) :
  w_output_file_path w = Unbound →
  ∃ w', Check.check_except Check.Playwright self a e w
        = (Raised (UnboundLocalError
             "cannot access local variable 'output_file_path' where it is not associated with a value"),
           w').
Proof.
  intros Hu. unfold Check.check_except. msimpl.
  destruct (clock_read_run (add_log (ERROR, "Critical error during page check") w))
    as (t & lags & ->).
  msimpl. cbn [w_output_file_path set_time add_log]. rewrite Hu. msimpl. eauto.
Qed.

(** Whatever makes the [try] block of Playwright's [check] raise before
    [output_file_path] is bound, the call ends with [UnboundLocalError]. *)
Lemma playwright_check_escapes (lib : PyLib) (m : Module) (self : Driver)
    (a : CheckArgs) (w : World) :
  fails_keeping (Check.check_try Check.Playwright lib m self a) →
  ∃ w', Check.check Check.Playwright lib m self a w
        = (Raised (UnboundLocalError
             "cannot access local variable 'output_file_path' where it is not associated with a value"),
           w').
Proof.
  intros Hfails. unfold Check.check. msimpl. unfold try_except.
  destruct (fails_bind_now _ (λ r, mret r.1) Hfails (set_output_file_path Unbound w))
    as (e & He & Hk).
  destruct (_ ≫= _) as [[r|e'] w1] eqn:Hrun in He, Hk |- *; simpl in He, Hk;
    [discriminate|].
  apply playwright_handler_unbound. exact Hk.
Qed.

Lemma playwright_screenshot_failure_escapes (lib : PyLib) (m : Module) (self : Driver)
    (a : CheckArgs) (w : World) :
  drv_screenshot self = None →
  ∃ w', Check.check Check.Playwright lib m self a w
        = (Raised (UnboundLocalError
             "cannot access local variable 'output_file_path' where it is not associated with a value"),
           w').
Proof.
  intros Hshot. by apply playwright_check_escapes, check_try_fails_screenshot.
Qed.

(** C1, evaluated on the code. In Playwright's copy of [check], a
    [custom_rules] argument that is not a dict makes the [try] block raise
    (the validation error, or an earlier failure of the screenshot) while
    the local variable [output_file_path] is still unbound; the handler
    then reads that variable, and [check] ends with [UnboundLocalError]
    raised to its caller: no [CheckResult] is returned. *)
Theorem C1_playwright_check_lets_exception_escape (lib : PyLib) (m : Module)
    (self : Driver) (a : CheckArgs) (w : World) (v : json) :
  custom_rules a = Some v → (∀ fields, v ≠ JObj fields) →
  ∃ w', Check.check Check.Playwright lib m self a w
        = (Raised (UnboundLocalError
             "cannot access local variable 'output_file_path' where it is not associated with a value"),
           w').
Proof.
  intros Hrules Hv.
  apply playwright_check_escapes.
  exact (check_try_fails_unbound Check.Playwright lib m self a v Hrules Hv).
Qed.

(** A call the hypotheses of C1 hold for: [custom_rules] is a list. *)
Lemma C1_playwright_check_witness :
  ∃ w', Check.check Check.Playwright Sample.lib Sample.module Sample.page
          (mkCheckArgs None (Some (JArr [])) None Prompt.default_output None None
                       30000 true (Some "ai_check_results"))
          (Sample.world Sample.answering)
        = (Raised (UnboundLocalError
             "cannot access local variable 'output_file_path' where it is not associated with a value"),
           w').
Proof.
  apply (C1_playwright_check_lets_exception_escape Sample.lib Sample.module Sample.page
           (mkCheckArgs None (Some (JArr [])) None Prompt.default_output None None
                        30000 true (Some "ai_check_results"))
           (Sample.world Sample.answering) (JArr [])); [reflexivity|discriminate].
Defined.

(** Playwright's handler does return the error-shaped result once
    [output_file_path] is bound, that is for an exception raised while the
    results are saved. *)
Lemma playwright_handler_bound (self : Driver) (a : CheckArgs) (e : exn) (w : World)
    (path : option string) :
  w_output_file_path w = Bound path →
  ∃ r w', Check.check_except Check.Playwright self a e w = (Returned r, w')
        ∧ error_result e r ∧ cr_output_file r = path.
Proof.
  intros Hb. unfold Check.check_except. msimpl.
  destruct (clock_read_run (add_log (ERROR, "Critical error during page check") w))
    as (t & lags & ->).
  msimpl. cbn [w_output_file_path set_time add_log]. rewrite Hb. msimpl.
  eexists _, _. split; [reflexivity|]. by split.
Qed.

(** A run of Playwright's [check] in which the result file cannot be
    written: the error is caught and shaped into a result. *)
Example playwright_write_failure_is_caught :
  ∃ r, (Check.check Check.Playwright Sample.lib Sample.module Sample.page
          Sample.default_args
          (Sample.world_denying "ai_check_results/ai_checks_20250101_120005.json"
                                Sample.answering)).1 = Returned r
       ∧ error_result (OSError "Permission denied") r.
Proof. eexists. split; [vm_compute; reflexivity|]. by split. Qed.

(** Selenium's copy of [check] does what Playwright's misses: its handler
    passes [None] for [output_file], so every call on a driver that still
    answers for its address returns a result, and
    when the [try] block raises [e], that result has no bugs and carries
    [{"error": str(e)}]. *)
Lemma selenium_check_never_raises (lib : PyLib) (m : Module) (self : Driver)
    (a : CheckArgs) (w : World) :
  ∃ r w', Check.check Check.Selenium lib m self a w = (Returned r, w')
    ∧ ∀ e w1, Check.check_try Check.Selenium lib m self a (set_output_file_path Unbound w)
               = (Raised e, w1) →
              error_result e r ∧ cr_output_file r = None.
Proof.
  unfold Check.check. msimpl. unfold try_except. rewrite bind_run.
  destruct (Check.check_try _ _ _ _ _ _) as [[[r sel]|e] w1] eqn:Htry.
  - msimpl. exists r, w1. split; [done|]. intros e w2 [=].
  - unfold Check.check_except. msimpl.
    destruct (clock_read_run (add_log (ERROR, "Critical error during page check") w1))
      as (t & lags & ->).
    msimpl. eexists _, _. split; [reflexivity|].
    intros e' w2 [= <- <-]. by split.
Qed.

(** ** Persisting the record *)

Lemma app_last_ne (x y : string) (c d : ascii) :
  c ≠ d → x +:+ String c EmptyString ≠ y +:+ String d EmptyString.
Proof.
  intros Hne. revert y.
  induction x as [|a x IH]; intros [|b y]; cbn [String.append]; intros H.
  - congruence.
  - injection H as _ H. by destruct y.
  - injection H as _ H. by destruct x.
  - injection H as _ H. by apply (IH y).
Qed.

(** The result file and the screenshot never share a name. *)
Lemma output_file_name_not_screenshot (label : option string) (ts ts' : string) :
  Check.output_file_name label ts ≠ "screenshots/check_" +:+ ts' +:+ ".png".
Proof.
  assert (Hpng : "screenshots/check_" +:+ ts' +:+ ".png"
                 = ("screenshots/check_" +:+ ts' +:+ ".pn") +:+ "g").
  { by rewrite !str_app_assoc. }
  rewrite Hpng. unfold Check.output_file_name.
  destruct (Py.truthy_opt label).
  - assert (E : default EmptyString label +:+ "_" +:+ ts +:+ "_ai.json"
              = (default EmptyString label +:+ "_" +:+ ts +:+ "_ai.jso") +:+ "n").
    { by rewrite !str_app_assoc. }
    rewrite E. by apply app_last_ne.
  - assert (E : "ai_checks_" +:+ ts +:+ ".json" = ("ai_checks_" +:+ ts +:+ ".jso") +:+ "n").
    { by rewrite !str_app_assoc. }
    rewrite E. by apply app_last_ne.
Qed.

(** Loading the existing results never raises and changes nothing; with
    no file under the name it reads, it yields the empty list. *)
Lemma load_existing_run (lib : PyLib) (output_file : string) (w : World) :
  ∃ existing, Check.load_existing lib output_file w = (Returned existing, w)
            ∧ (w_fs w !! output_file = None → existing = []).
Proof.
  unfold Check.load_existing, try_except_only, try_except, Fs.read_file.
  rewrite bind_run. destruct (w_fs w !! output_file) as [content|]; [|by eauto].
  destruct (json_loads lib content) as [[]|]; msimpl;
    (eexists; split; [reflexivity|done]).
Qed.

Lemma persist_returned (b : Check.binding) (lib : PyLib) (a : CheckArgs)
    (check_result : json) (w w' : World) (output_file_path : option string)
    (dir : string) :
  save_to_file a = true →
  output_dir a = Some dir →
  Str.truthy dir = true →
  Check.persist b lib a check_result w = (Returned output_file_path, w') →
  ∃ timestamp_str,
    output_file_path
    = Some (Fs.path_join dir (Check.output_file_name (label a) timestamp_str))
    ∧ match b with
      | Check.Selenium =>
          w_fs w' !! Fs.path_join dir (Check.output_file_name (label a) timestamp_str)
          = Some (json_dumps lib check_result)
      | Check.Playwright =>
          ∃ existing,
            w_fs w' !! Fs.path_join dir (Check.output_file_name (label a) timestamp_str)
            = Some (json_dumps lib (JArr (existing ++ [check_result])))
            ∧ (w_fs w !! Check.output_file_name (label a) timestamp_str = None →
               existing = [])
      end.
Proof.
  intros Hsave Hdir Htruthy. unfold Check.persist.
  rewrite Hsave, Hdir. cbn [Py.truthy_opt default from_option id]. rewrite Htruthy.
  msimpl.
  destruct (clock_read_run (set_output_file_path (Bound None) w)) as (t & lags & ->).
  msimpl. unfold Fs.makedirs at 1. cbn [w_denied set_time set_output_file_path].
  destruct (w_denied w dir); [discriminate|]. msimpl.
  set (name := Check.output_file_name (label a) (stamp_compact lib t)).
  set (w1 := set_output_file_path _ _).
  assert (Hfs : w_fs w1 = w_fs w) by done.
  clearbody w1. intros H. exists (stamp_compact lib t). fold name.
  destruct b.
  - destruct (load_existing_run lib name w1) as (existing & Hload & Hnone).
    rewrite bind_run, Hload in H. unfold Fs.write_file in H.
    destruct (w_denied w1 _); [discriminate|]. revert H. msimpl.
    intros [= <- <-]. split; [done|]. exists existing. split.
    + cbn [w_fs add_log set_fs]. by rewrite lookup_insert_eq.
    + by rewrite <- Hfs.
  - unfold Fs.write_file in H.
    destruct (w_denied w1 _); [discriminate|]. revert H. msimpl.
    intros [= <- <-]. split; [done|].
    cbn [w_fs add_log set_fs]. by rewrite lookup_insert_eq.
Qed.

(** Every selected tester adds one entry to [all_findings]. *)
Lemma analyse_testers_length (lib : PyLib) (m : Module)
    (url page_text image : string) (a : CheckArgs) (selected : list Tester) :
  ∀ (vision_response : local json) (all_findings findings : list json) (w w' : World),
  Check.analyse_testers lib m url page_text image a vision_response all_findings
                        selected w = (Returned findings, w') →
  length findings = length all_findings + length selected.
Proof.
  induction selected as [|tester rest IH]; intros vr acc findings w w';
    cbn [Check.analyse_testers].
  - intros [= <- <-]. simpl. lia.
  - intros H.
    apply bind_returned in H as (rl & w1 & _ & H).
    apply bind_returned in H as (rl' & w2 & _ & H).
    apply bind_returned in H as (u & w3 & _ & H).
    apply bind_returned in H as (assigned & w4 & _ & H).
    destruct (from_option Bound vr assigned) as [|v]; [discriminate|].
    apply IH in H. rewrite H, length_app. simpl. lia.
Qed.

(** A screenshot that is taken changes no file but the screenshot. *)
Lemma take_screenshot_fs (b : Check.binding) (self : Driver) (path : string)
    (w w' : World) (o : Outcome unit) :
  Check.take_screenshot b self path w = (o, w') →
  ∀ p, p ≠ path → w_fs w' !! p = w_fs w !! p.
Proof.
  unfold Check.take_screenshot, try_except_only, try_except, Fs.write_file.
  destruct (drv_screenshot self) as [png|]; [|by intros [= <- <-]].
  destruct b; destruct (w_denied w path); intros [= <- <-] p Hp;
    cbn [w_fs set_fs]; by rewrite ?lookup_insert_ne.
Qed.

(** C2, the claim as stated fails: Selenium's copy of [check], called with
    its default arguments on an empty file system, writes the record
    itself, a JSON object, and no array. *)
Lemma C2_counterexample :
  let w := Sample.world Sample.answering in
  let run := Check.check Check.Selenium Sample.lib Sample.module Sample.page
                         Sample.default_args w in
  w_fs w = ∅
  ∧ ∃ r path,
      run.1 = Returned r
      ∧ cr_output_file r = Some path
      ∧ w_fs run.2 !! path = Some (json_dumps Sample.lib (cr_raw_response r))
      ∧ ∀ records, w_fs run.2 !! path ≠ Some (json_dumps Sample.lib (JArr records)).
Proof.
  cbv zeta. split; [reflexivity|].
  eexists _, _. split; [vm_compute; reflexivity|].
  split; [reflexivity|]. split; [vm_compute; reflexivity|].
  intros records. vm_compute. discriminate.
Qed.

(** The slip in Playwright's copy: the existing results are read from the
    bare file name, in the working directory, and not from the path the
    results are written to. A document already at that path is replaced
    without being read; a document under the bare name is read and
    extended. *)
Example playwright_replaces_document_at_target :
  w_fs (Check.check Check.Playwright Sample.lib Sample.module Sample.page
          Sample.default_args
          (Sample.world_with "ai_check_results/ai_checks_20250101_120005.json" "[null]"
                             Sample.answering)).2
    !! "ai_check_results/ai_checks_20250101_120005.json"
  = w_fs (Check.check Check.Playwright Sample.lib Sample.module Sample.page
            Sample.default_args (Sample.world Sample.answering)).2
      !! "ai_check_results/ai_checks_20250101_120005.json".
Proof. vm_compute. reflexivity. Qed.

Example playwright_reads_bare_name :
  ∃ r,
    (Check.check Check.Playwright Sample.lib Sample.module Sample.page
       Sample.default_args
       (Sample.world_with "ai_checks_20250101_120005.json" "[null]" Sample.answering)).1
    = Returned r
    ∧ w_fs (Check.check Check.Playwright Sample.lib Sample.module Sample.page
              Sample.default_args
              (Sample.world_with "ai_checks_20250101_120005.json" "[null]"
                                 Sample.answering)).2
        !! "ai_check_results/ai_checks_20250101_120005.json"
      = Some (json_dumps Sample.lib (JArr [JNull; cr_raw_response r])).
Proof. eexists. split; vm_compute; reflexivity. Qed.

(** C2, amended. When [check] is called with [save_to_file] set and a
    non-empty [output_dir], and its [try] block completes, then the result
    carries the record of the call, whose [testers_results] has one entry
    per selected tester, and names the file
    [os.path.join(output_dir, output_file)]. Selenium's copy writes the
    record itself to that file, a single JSON object, and loads nothing.
    Playwright's copy writes a JSON array that ends with the record, and
    that holds the record alone when no file is present, neither at that
    path nor under the bare name [output_file]. *)
Theorem C2_persisted_record (b : Check.binding) (lib : PyLib) (m : Module)
    (self : Driver) (a : CheckArgs) (w w' : World) (r : CheckResult)
    (selected : list Tester) (dir : string) :
  save_to_file a = true →
  output_dir a = Some dir →
  Str.truthy dir = true →
  Check.check_try b lib m self a (set_output_file_path Unbound w)
  = (Returned (r, selected), w') →
  Check.check b lib m self a w = (Returned r, w')
  ∧ selected = Registry.select_testers (TESTERS m) (testers a)
  ∧ ∃ timestamp timestamp_str findings,
      cr_raw_response r
      = Check.check_record timestamp (drv_url self)
                           ("screenshots/check_" +:+ timestamp +:+ ".png") findings
      ∧ length findings = length selected
      ∧ cr_output_file r
        = Some (Fs.path_join dir (Check.output_file_name (label a) timestamp_str))
      ∧ match b with
        | Check.Selenium =>
            w_fs w' !! Fs.path_join dir (Check.output_file_name (label a) timestamp_str)
            = Some (json_dumps lib (cr_raw_response r))
        | Check.Playwright =>
            ∃ existing,
              w_fs w' !! Fs.path_join dir (Check.output_file_name (label a) timestamp_str)
              = Some (json_dumps lib (JArr (existing ++ [cr_raw_response r])))
              ∧ (w_fs w !! Fs.path_join dir (Check.output_file_name (label a) timestamp_str)
                 = None →
                 w_fs w !! Check.output_file_name (label a) timestamp_str = None →
                 existing = [])
        end.
Proof.
  intros Hsave Hdir Htruthy Htry.
  split.
  { unfold Check.check. msimpl. unfold try_except. rewrite bind_run, Htry. by msimpl. }
  pose proof framed_fs as Hfr.
  unfold Check.check_try in Htry.
  apply bind_returned in Htry as (u1 & w1 & H1 & H).
  apply bind_returned in H as (u2 & w2 & H2 & H).
  apply bind_returned in H as (now & w3 & H3 & H). cbv zeta in H.
  apply bind_returned in H as (u4 & w4 & H4 & H).
  apply bind_returned in H as (image & w5 & H5 & H).
  apply bind_returned in H as (u6 & w6 & H6 & H).
  apply bind_returned in H as (u7 & w7 & H7 & H).
  apply bind_returned in H as (u8 & w8 & H8 & H).
  apply bind_returned in H as (page_text & w9 & H9 & H).
  apply bind_returned in H as (findings & w10 & H10 & H).
  apply bind_returned in H as (u11 & w11 & H11 & H).
  apply bind_returned in H as (issues & w12 & H12 & H).
  apply bind_returned in H as (ofp & w13 & H13 & H).
  apply bind_returned in H as (now' & w14 & H14 & H).
  injection H as <- <- <-. cbn [cr_raw_response cr_output_file].
  split; [reflexivity|].
  destruct (persist_returned b lib a _ w12 w13 ofp dir Hsave Hdir Htruthy H13)
    as (ts & -> & Hfile).
  exists (stamp_compact lib now), ts, findings.
  split; [reflexivity|]. split.
  { by apply analyse_testers_length in H10. }
  split; [reflexivity|].
  (* the file system between the entry of [check] and the persisting step *)
  assert (Hfs14 : w_fs w14 = w_fs w13).
  { by apply (keeps_run w_fs _ _ _ _ (keeps_clock_read w_fs Hfr) H14). }
  assert (Hbefore : ∀ p, p ≠ "screenshots/check_" +:+ stamp_compact lib now +:+ ".png" →
                         w_fs w12 !! p = w_fs w !! p).
  { intros p Hp.
    rewrite (keeps_run w_fs _ _ _ _ (keeps_collect_issues w_fs Hfr lib findings []) H12).
    assert (E11 : w_fs w11 = w_fs w10).
    { eapply keeps_run; [|exact H11]. destruct b; [by apply keeps_log|apply keeps_ret]. }
    rewrite E11.
    rewrite (keeps_run w_fs _ _ _ _
               (keeps_analyse_testers w_fs Hfr lib m _ _ _ a _ Unbound []) H10).
    rewrite (keeps_run w_fs _ _ _ _ (keeps_body_text w_fs self) H9).
    assert (E8 : w_fs w8 = w_fs w7).
    { eapply keeps_run; [|exact H8]. destruct (_.2); [by apply keeps_log|apply keeps_ret]. }
    rewrite E8.
    assert (E7 : w_fs w7 = w_fs w6).
    { eapply keeps_run; [|exact H7].
      destruct (custom_rules a) as [[]|]; try apply keeps_ret;
        (apply keeps_bind; [by apply keeps_log|intros _; apply keeps_raise]). }
    rewrite E7.
    assert (E6 : w_fs w6 = w_fs w5).
    { eapply keeps_run; [|exact H6]. destruct (_ <? _)%Z; [by apply keeps_log|apply keeps_ret]. }
    rewrite E6.
    rewrite (keeps_run w_fs _ _ _ _ (keeps_read_file w_fs _) H5).
    rewrite (take_screenshot_fs _ _ _ _ _ _ H4 p Hp).
    rewrite (keeps_run w_fs _ _ _ _ (keeps_clock_read w_fs Hfr) H3).
    rewrite (keeps_run w_fs _ _ _ _ (keeps_makedirs w_fs _) H2).
    by rewrite (keeps_run w_fs _ _ _ _ (keeps_log w_fs Hfr _ _) H1). }
  rewrite Hfs14. destruct b; [|exact Hfile].
  destruct Hfile as (existing & Hlookup & Hnone).
  exists existing. split; [exact Hlookup|].
  intros _ Hname. apply Hnone. rewrite Hbefore; [exact Hname|].
  apply output_file_name_not_screenshot.
Qed.

(** A call the hypotheses of C2 hold for: Playwright's [check] with its
    default arguments, on an empty file system. *)
Lemma C2_persisted_record_witness :
  ∃ r w', Check.check Check.Playwright Sample.lib Sample.module Sample.page
                      Sample.default_args (Sample.world Sample.answering)
          = (Returned r, w').
Proof.
  eexists _, _.
  eapply (C2_persisted_record Check.Playwright Sample.lib Sample.module Sample.page
           Sample.default_args (Sample.world Sample.answering) _ _ _ "ai_check_results");
    [reflexivity|reflexivity|reflexivity|vm_compute; reflexivity].
Defined.

(** * Further properties of the code *)

(** ** Stripping Markdown fences *)

Lemma strip_prefix_some (p s rest : string) :
  Fs.strip_prefix p s = Some rest → s = p +:+ rest.
Proof.
  revert s. induction p as [|a p IH]; intros s; cbn [Fs.strip_prefix String.append].
  - by intros [= ->].
  - destruct s as [|b s]; [done|].
    destruct (Ascii.eqb_spec a b) as [->|]; [|done].
    intros H. by rewrite (IH s H).
Qed.

Lemma strip_prefix_length (p s rest : string) :
  Fs.strip_prefix p s = Some rest →
  String.length s = String.length p + String.length rest.
Proof.
  intros ->%strip_prefix_some. induction p as [|a p IH]; simpl; [done|]. by rewrite IH.
Qed.

Lemma after_newline_length (s tail : string) :
  Vision.after_newline s = Some tail → String.length tail < String.length s.
Proof.
  revert tail. induction s as [|c s IH]; intros tail; cbn [Vision.after_newline].
  - done.
  - destruct (Ascii.eqb c (ascii_of_nat 10)).
    + intros [= ->]. simpl. lia.
    + intros H%IH. simpl. lia.
Qed.

(** The result does not depend on the fuel, once there is enough of it. *)
Lemma strip_fences_from_enough (fuel : nat) : ∀ (fuel' : nat) (s : string),
  String.length s ≤ fuel → String.length s ≤ fuel' →
  Vision.strip_fences_from fuel s = Vision.strip_fences_from fuel' s.
Proof.
  induction fuel as [|fuel IH]; intros fuel' s Hf Hf'.
  - destruct s; [|simpl in Hf; lia]. by destruct fuel'.
  - destruct s as [|c s]; [by destruct fuel'|].
    destruct fuel' as [|fuel']; [simpl in Hf'; lia|].
    cbn [Vision.strip_fences_from].
    destruct (Fs.strip_prefix Vision.fence (String c s)) as [rest|] eqn:Hp.
    + apply strip_prefix_length in Hp. simpl in Hp, Hf, Hf'.
      destruct (Vision.after_newline rest) as [tail|] eqn:Hn.
      * apply after_newline_length in Hn. apply IH; lia.
      * apply IH; lia.
    + f_equal. simpl in Hf, Hf'. apply IH; lia.
Qed.

(** How [strip_fences] proceeds on a string that is not empty. *)
Lemma strip_fences_cons (c : ascii) (s : string) :
  Vision.strip_fences (String c s)
  = match Fs.strip_prefix Vision.fence (String c s) with
    | Some rest =>
        match Vision.after_newline rest with
        | Some tail => Vision.strip_fences tail
        | None => Vision.strip_fences rest
        end
    | None => String c (Vision.strip_fences s)
    end.
Proof.
  unfold Vision.strip_fences at 1.
  change (String.length (String c s)) with (S (String.length s)).
  cbn [Vision.strip_fences_from].
  destruct (Fs.strip_prefix Vision.fence (String c s)) as [rest|] eqn:Hp.
  - apply strip_prefix_length in Hp. simpl in Hp.
    destruct (Vision.after_newline rest) as [tail|] eqn:Hn.
    + apply after_newline_length in Hn. apply strip_fences_from_enough; lia.
    + apply strip_fences_from_enough; lia.
  - reflexivity.
Qed.

Lemma strip_fences_nil : Vision.strip_fences EmptyString = EmptyString.
Proof. reflexivity. Qed.

(** Induction on the length of a string. *)
Lemma string_length_ind (P : string → Prop) :
  (∀ s, (∀ t, String.length t < String.length s → P t) → P s) → ∀ s, P s.
Proof.
  intros Hstep s. remember (String.length s) as n eqn:E. revert s E.
  induction n as [n IH] using lt_wf_ind. intros s ->.
  apply Hstep. intros t Ht. by apply (IH (String.length t)).
Qed.

Lemma fence_free_nil : fence_free EmptyString.
Proof. intros (pre & post & H). by destruct pre. Qed.

Lemma fence_free_tail (c : ascii) (s : string) :
  fence_free (String c s) → fence_free s.
Proof.
  intros Hs (pre & post & ->). apply Hs. by exists (String c pre), post.
Qed.

Lemma fence_free_no_prefix (s : string) :
  fence_free s → Fs.strip_prefix Vision.fence s = None.
Proof.
  intros Hs. destruct (Fs.strip_prefix Vision.fence s) as [rest|] eqn:Hp; [|done].
  destruct Hs. exists EmptyString, rest. exact (strip_prefix_some _ _ _ Hp).
Qed.

(** A backtick that is kept is never followed by two more in the result. *)
Lemma strip_fences_after_tick (s : string) (post : string) :
  Fs.strip_prefix Vision.fence (String "`" s) = None →
  Vision.strip_fences s ≠ "``" +:+ post.
Proof.
  intros Hp. destruct s as [|d s]; [intros H; by cbv in H|].
  rewrite strip_fences_cons.
  destruct (Fs.strip_prefix Vision.fence (String d s)) as [rest|] eqn:Hd.
  { apply strip_prefix_some in Hd. rewrite Hd in Hp. by cbn in Hp. }
  intros [= -> H].
  destruct s as [|e s]; [by cbv in H|].
  rewrite strip_fences_cons in H.
  destruct (Ascii.eqb_spec "`" e) as [<-|Hne]; [by cbn in Hp|].
  assert (He : Fs.strip_prefix Vision.fence (String e s) = None).
  { unfold Vision.fence. cbn [Fs.strip_prefix].
    by destruct (Ascii.eqb_spec "`" e). }
  rewrite He in H. by injection H as -> _.
Qed.

Lemma strip_fences_fence_free (content : string) :
  fence_free (Vision.strip_fences content).
Proof.
  induction content as [s IH] using string_length_ind.
  destruct s as [|c s]; [apply fence_free_nil|].
  rewrite strip_fences_cons.
  destruct (Fs.strip_prefix Vision.fence (String c s)) as [rest|] eqn:Hp.
  - apply strip_prefix_length in Hp. simpl in Hp.
    destruct (Vision.after_newline rest) as [tail|] eqn:Hn.
    + apply after_newline_length in Hn. apply IH. simpl. lia.
    + apply IH. simpl. lia.
  - intros (pre & post & H). destruct pre as [|x pre]; cbn in H.
    + injection H as -> H. by apply (strip_fences_after_tick s post).
    + injection H as _ H. apply (IH s); [simpl; lia|]. by exists pre, post.
Qed.

(** X1. The text [strip_fences] returns holds no Markdown fence: no three
    backticks in a row are left, also not across the places where a fence
    was removed. *)
Theorem strip_fences_leaves_no_fence (content : string) :
  Str.contains Vision.fence (Vision.strip_fences content) = false.
Proof.
  destruct (Str.contains _ _) eqn:E; [|done].
  apply contains_spec in E. by destruct (strip_fences_fence_free content).
Qed.

Lemma strip_fences_id (s : string) : fence_free s → Vision.strip_fences s = s.
Proof.
  induction s as [|c s IH]; intros Hs; [done|].
  rewrite strip_fences_cons, (fence_free_no_prefix _ Hs).
  f_equal. apply IH. by apply fence_free_tail in Hs.
Qed.

(** X2. A text without a fence is returned as it is; hence stripping twice
    is stripping once. *)
Theorem strip_fences_idempotent (content : string) :
  (Str.contains Vision.fence content = false → Vision.strip_fences content = content)
  ∧ Vision.strip_fences (Vision.strip_fences content) = Vision.strip_fences content.
Proof.
  split.
  - intros Hc. apply strip_fences_id. intros Hs%contains_spec. congruence.
  - apply strip_fences_id, strip_fences_fence_free.
Qed.

Lemma after_newline_app (lang rest : string) :
  Vision.after_newline lang = None →
  Vision.after_newline (lang +:+ Str.nl +:+ rest) = Some rest.
Proof.
  induction lang as [|c lang IH]; cbn [Vision.after_newline String.append].
  - intros _. reflexivity.
  - destruct (Ascii.eqb c (ascii_of_nat 10)); [done|]. exact IH.
Qed.

Lemma strip_fences_closing (body : string) :
  fence_free body →
  Vision.strip_fences (body +:+ Str.nl +:+ Vision.fence) = body +:+ Str.nl.
Proof.
  induction body as [|c body IH]; intros Hb.
  - reflexivity.
  - cbn [String.append]. rewrite strip_fences_cons.
    destruct (Fs.strip_prefix _ _) as [rest|] eqn:Hp.
    + destruct Hb. apply strip_prefix_some in Hp. cbn in Hp.
      injection Hp as -> Hp.
      destruct body as [|d [|e body]]; cbn in Hp; try discriminate.
      injection Hp as -> -> _. by exists EmptyString, body.
    + f_equal. apply IH. by apply fence_free_tail in Hb.
Qed.

Lemma contains_false_fence_free (s : string) :
  Str.contains Vision.fence s = false → fence_free s.
Proof. intros Hc Hs%contains_spec. congruence. Qed.

(** X3. A JSON text that the model wraps in a fenced block, with or
    without a language tag on the opening line, is unwrapped: the two
    fences and the tag go, the text between them stays with its line
    feed. *)
Theorem strip_fences_unwraps_block (lang body : string) :
  Vision.after_newline lang = None →
  Str.contains Vision.fence body = false →
  Vision.strip_fences
    (Vision.fence +:+ lang +:+ Str.nl +:+ body +:+ Str.nl +:+ Vision.fence)
  = body +:+ Str.nl.
Proof.
  intros Hlang Hbody%contains_false_fence_free.
  change (Vision.fence +:+ ?x) with (String "`" ("``" +:+ x)).
  rewrite strip_fences_cons.
  change (Fs.strip_prefix Vision.fence (String "`" ("``" +:+ ?x))) with (Some x).
  cbv iota. rewrite (after_newline_app lang _ Hlang).
  by apply strip_fences_closing.
Qed.

(** A fenced block the hypotheses of X3 hold for. *)
Lemma strip_fences_unwraps_block_witness :
  Vision.strip_fences
    (Vision.fence +:+ "json" +:+ Str.nl +:+ "[]" +:+ Str.nl +:+ Vision.fence)
  = "[]" +:+ Str.nl.
Proof.
  apply (strip_fences_unwraps_block "json" "[]"); reflexivity.
Defined.

(** ** [chat_vision] and [gptchat] *)

Lemma keeps_after_post {S} (proj : World → S) (lib : PyLib) (response : Z * option json) :
  keeps proj (after_post lib response).
Proof.
  unfold after_post, Vision.raise_for_status, Vision.response_json.
  repeat first
    [ apply keeps_bind; [|intros ?]
    | apply keeps_ret | apply keeps_raise | apply keeps_raise_if
    | apply keeps_getitem_key | apply keeps_getitem_first
    | match goal with |- keeps _ (match ?x with _ => _ end) => destruct x end ].
Qed.

(** Without the key, the image or the prompt, the [try] block raises at
    once, and what it raises is no [RequestException]. *)
Lemma chat_vision_try_guarded (lib : PyLib) (m : Module)
    (prompt base64_image : string) (add_time : bool) (w : World) :
  sendable m prompt base64_image = false →
  ∃ e, Vision.chat_vision_try lib m prompt base64_image add_time w = (Raised e, w)
       ∧ is_request_exception e = false.
Proof.
  unfold sendable, Vision.chat_vision_try. intros Hs. rewrite bind_run.
  destruct (Py.truthy_opt (api_key m)); cbn [negb raise_if]; [|by eexists].
  msimpl. destruct (Str.truthy base64_image); cbn [negb raise_if]; [|by eexists].
  msimpl. destruct (Str.truthy prompt); [done|]. by eexists.
Qed.

(** With all three, the [try] block sends one request, whose text ends
    with the prompt, and goes on with the statements after the post. *)
Lemma chat_vision_try_sends (lib : PyLib) (m : Module)
    (prompt base64_image : string) (add_time : bool) (w : World) :
  sendable m prompt base64_image = true →
  ∃ text w1,
    Str.is_suffix prompt text
    ∧ (add_time = false → text = prompt)
    ∧ (∃ t lags, w1 = set_time t lags w)
    ∧ Vision.chat_vision_try lib m prompt base64_image add_time w
      = (Vision.requests_post (vision_request m text base64_image)
         ≫= after_post lib) w1.
Proof.
  unfold sendable, Vision.chat_vision_try.
  intros [[-> ->]%andb_true_iff ->]%andb_true_iff. msimpl.
  destruct add_time; msimpl.
  - destruct (clock_read_run w) as (t & lags & Hc). rewrite Hc. msimpl.
    exists ("Current time: " +:+ stamp_human lib t +:+ Str.nl +:+ prompt),
           (set_time t lags w).
    split; [|split; [done|split; [by eauto|reflexivity]]].
    exists ("Current time: " +:+ stamp_human lib t +:+ Str.nl).
    by rewrite <- !str_app_assoc.
  - exists prompt, w. split; [by exists EmptyString|]. split; [done|]. split.
    + exists (w_clock w), (w_lags w). by rewrite world_eta.
    + reflexivity.
Qed.

(** What the post and the statements after it do to the record of
    requests: one more request, whatever the endpoint answers. *)
Lemma post_then_decode_requests (lib : PyLib) (r : request) (w : World) :
  w_requests ((Vision.requests_post r ≫= after_post lib) w).2 = r :: w_requests w.
Proof.
  rewrite bind_run. unfold Vision.requests_post.
  destruct (w_endpoint w _) as [msg|status body]; [done|].
  by rewrite (keeps_after_post w_requests lib (status, body) (add_request r w)).
Qed.

(** X4. [chat_vision] never raises: whatever its arguments, the key and
    the endpoint, it returns; and when its [try] block raises, what it
    returns is the string ["[]"], after one record logged at level ERROR. *)
Theorem chat_vision_never_raises (lib : PyLib) (m : Module)
    (prompt base64_image : string) (add_time : bool) (w : World) :
  ∃ v w',
    Vision.chat_vision lib m prompt base64_image add_time w = (Returned v, w')
    ∧ ∀ e w1,
        Vision.chat_vision_try lib m prompt base64_image add_time w = (Raised e, w1) →
        v = JStr "[]"
        ∧ ∃ msg, w' = add_log (ERROR, msg) w1.
Proof.
  unfold Vision.chat_vision, try_except.
  destruct (Vision.chat_vision_try _ _ _ _ _ _) as [[v|e] w1].
  - exists v, w1. split; [done|]. intros e w2 [=].
  - destruct (is_request_exception e); msimpl;
      (eexists _, _; split; [reflexivity|]; intros e' w2 [= <- <-]; eauto).
Qed.

(** X5. [chat_vision] sends a request exactly when the key, the image and
    the prompt are all non-empty, and then it sends one: its image is the
    data URL of the screenshot, its authorization carries the key, and its
    text ends with the prompt. Otherwise no request is sent and the string
    ["[]"] is returned. *)
Theorem chat_vision_requests (lib : PyLib) (m : Module)
    (prompt base64_image : string) (add_time : bool) (w : World) :
  let run := Vision.chat_vision lib m prompt base64_image add_time w in
  if sendable m prompt base64_image
  then ∃ text, w_requests run.2 = vision_request m text base64_image :: w_requests w
               ∧ Str.is_suffix prompt text
  else w_requests run.2 = w_requests w ∧ run.1 = Returned (JStr "[]").
Proof.
  cbv zeta. unfold Vision.chat_vision, try_except.
  destruct (sendable m prompt base64_image) eqn:Hs.
  - destruct (chat_vision_try_sends lib m prompt base64_image add_time w Hs)
      as (text & w1 & Hsuffix & _ & (t & lags & ->) & ->).
    exists text. split; [|done].
    pose proof (post_then_decode_requests lib (vision_request m text base64_image)
                  (set_time t lags w)) as Hreq.
    destruct ((Vision.requests_post _ ≫= after_post lib) _) as [[v|e] w2];
      cbn [snd] in *; [done|].
    destruct (is_request_exception e); msimpl; exact Hreq.
  - destruct (chat_vision_try_guarded lib m prompt base64_image add_time w Hs)
      as (e & -> & ->). by msimpl.
Qed.

(** X6. An answer of the endpoint with a status outside 400..599, whose
    body holds a string under [choices[0].message.content] that parses
    once its fences are stripped, makes [chat_vision] return the parsed
    value; nothing is logged. *)
Theorem chat_vision_answer (lib : PyLib) (m : Module)
    (prompt base64_image : string) (add_time : bool) (w : World)
    (status : Z) (fields zero msg : list (string * json)) (more : list json)
    (content : string) (v : json) :
  sendable m prompt base64_image = true →
  w_endpoint w (length (w_requests w)) = Response status (Some (JObj fields)) →
  (status < 400 ∨ 600 ≤ status)%Z →
  Py.assoc "choices" fields = Some (JArr (JObj zero :: more)) →
  Py.assoc "message" zero = Some (JObj msg) →
  Py.assoc "content" msg = Some (JStr content) →
  json_loads lib (Vision.strip_fences content) = Some v →
  ∃ w', Vision.chat_vision lib m prompt base64_image add_time w = (Returned v, w')
        ∧ w_log w' = w_log w.
Proof.
  intros Hs Hend Hstatus Hchoices Hmsg Hcontent Hloads.
  unfold Vision.chat_vision, try_except.
  destruct (chat_vision_try_sends lib m prompt base64_image add_time w Hs)
    as (text & w1 & _ & _ & (t & lags & ->) & ->).
  rewrite bind_run. unfold Vision.requests_post.
  cbn [w_endpoint w_requests set_time]. rewrite Hend.
  unfold after_post, Vision.raise_for_status. cbn [fst snd].
  assert (Hok : ((400 <=? status)%Z && (status <? 600)%Z) = false).
  { apply andb_false_iff. destruct Hstatus; [left|right]; lia. }
  rewrite Hok. msimpl. cbn [Vision.response_json Py.getitem_key]. msimpl.
  cbn [Py.getitem_key]. rewrite Hchoices. msimpl.
  cbn [Py.getitem_first Py.getitem_key]. msimpl.
  cbn [Py.getitem_key]. rewrite Hmsg. msimpl.
  cbn [Py.getitem_key]. rewrite Hcontent. msimpl.
  rewrite Hloads. msimpl. eexists. split; [reflexivity|done].
Qed.

(** An answer the hypotheses of X6 hold for. *)
Lemma chat_vision_answer_witness :
  ∃ w', Vision.chat_vision Sample.lib Sample.module "Describe the page" "aGVsbG8=" true
          (Sample.world Sample.answering) = (Returned (JArr []), w')
        ∧ w_log w' = w_log (Sample.world Sample.answering).
Proof.
  apply (chat_vision_answer Sample.lib Sample.module "Describe the page" "aGVsbG8=" true
           (Sample.world Sample.answering) 200
           [("choices", JArr [JObj [("message", JObj [("content", JStr "[]")])]])]
           [("message", JObj [("content", JStr "[]")])]
           [("content", JStr "[]")] [] "[]" (JArr []));
    try reflexivity. left. lia.
Defined.

(** X7. An answer with a status from 400 to 599 is an error, whatever its
    body holds: [chat_vision] has sent its one request, logs "API request
    failed" and returns the string ["[]"]. *)
Theorem chat_vision_bad_status (lib : PyLib) (m : Module)
    (prompt base64_image : string) (add_time : bool) (w : World)
    (status : Z) (body : option json) :
  sendable m prompt base64_image = true →
  w_endpoint w (length (w_requests w)) = Response status body →
  (400 ≤ status < 600)%Z →
  ∃ w', Vision.chat_vision lib m prompt base64_image add_time w
        = (Returned (JStr "[]"), w')
        ∧ length (w_requests w') = S (length (w_requests w))
        ∧ w_log w' = (ERROR, "API request failed") :: w_log w.
Proof.
  intros Hs Hend Hstatus.
  unfold Vision.chat_vision, try_except.
  destruct (chat_vision_try_sends lib m prompt base64_image add_time w Hs)
    as (text & w1 & _ & _ & (t & lags & ->) & ->).
  rewrite bind_run. unfold Vision.requests_post.
  cbn [w_endpoint w_requests set_time]. rewrite Hend.
  unfold after_post, Vision.raise_for_status. cbn [fst snd].
  assert (Hbad : ((400 <=? status)%Z && (status <? 600)%Z) = true).
  { apply andb_true_iff. split; lia. }
  rewrite Hbad. msimpl. cbn [is_request_exception]. msimpl.
  eexists. split; [reflexivity|]. by cbn.
Qed.

(** A rate-limited answer, for which the hypotheses of X7 hold. *)
Lemma chat_vision_bad_status_witness :
  ∃ w', Vision.chat_vision Sample.lib Sample.module "Describe the page" "aGVsbG8=" true
          (Sample.world (λ _, Response 429 None)) = (Returned (JStr "[]"), w')
        ∧ length (w_requests w') = S (length (w_requests (Sample.world (λ _, Response 429 None))))
        ∧ w_log w' = (ERROR, "API request failed")
                     :: w_log (Sample.world (λ _, Response 429 None)).
Proof.
  apply (chat_vision_bad_status Sample.lib Sample.module "Describe the page" "aGVsbG8="
           true (Sample.world (λ _, Response 429 None)) 429 None);
    [reflexivity|reflexivity|lia].
Defined.

(** What [gptchat] does up to its request: with a key, it sends one
    request, whose text ends with the prompt, and goes on with the
    answer. *)
Lemma gptchat_sends (lib : PyLib) (m : Module) (prompt : string)
    (add_time : bool) (w : World) :
  Py.truthy_opt (api_key m) = true →
  ∃ text t lags outcome,
    Str.is_suffix prompt text
    ∧ w_endpoint w (length (w_requests w)) = outcome
    ∧ Chat.gptchat lib m prompt add_time w
      = match outcome with
        | ConnectFailed msg =>
            (Raised (RequestException msg),
             add_request (mkRequest text EmptyString
                            ("Bearer " +:+ default EmptyString (api_key m)))
                         (set_time t lags w))
        | Response status body =>
            (resp ← Vision.response_json body;
             choices ← Py.getitem_key resp "choices";
             zero ← Py.getitem_first choices;
             msg ← Py.getitem_key zero "message";
             content ← Py.getitem_key msg "content";
             match content with
             | JStr content => mret (Vision.strip_fences content)
             | _ => raise (TypeError "expected string or bytes-like object")
             end)
              (add_request (mkRequest text EmptyString
                              ("Bearer " +:+ default EmptyString (api_key m)))
                           (set_time t lags w))
        end.
Proof.
  intros Hkey. unfold Chat.gptchat. rewrite Hkey. msimpl.
  destruct add_time; msimpl.
  - destruct (clock_read_run w) as (t & lags & Hc). rewrite Hc. msimpl.
    exists ("Current time: " +:+ stamp_human lib t +:+ Str.nl +:+ prompt), t, lags,
           (w_endpoint w (length (w_requests w))).
    split; [|split; [done|]].
    + exists ("Current time: " +:+ stamp_human lib t +:+ Str.nl).
      by rewrite <- !str_app_assoc.
    + unfold Vision.requests_post. cbn [w_endpoint w_requests set_time].
      by destruct (w_endpoint w _).
  - exists prompt, (w_clock w), (w_lags w), (w_endpoint w (length (w_requests w))).
    split; [by exists EmptyString|split; [done|]].
    rewrite world_eta. unfold Vision.requests_post.
    by destruct (w_endpoint w _).
Qed.

(** X8. [gptchat] has no handler of its own: when the endpoint cannot be
    reached, the connection error leaves [gptchat] as it was raised, after
    the one request, and nothing is logged. *)
Theorem gptchat_connection_error_escapes (lib : PyLib) (m : Module)
    (prompt : string) (add_time : bool) (w : World) (reason : string) :
  Py.truthy_opt (api_key m) = true →
  w_endpoint w (length (w_requests w)) = ConnectFailed reason →
  ∃ w', Chat.gptchat lib m prompt add_time w = (Raised (RequestException reason), w')
        ∧ length (w_requests w') = S (length (w_requests w))
        ∧ w_log w' = w_log w.
Proof.
  intros Hkey Hend.
  destruct (gptchat_sends lib m prompt add_time w Hkey)
    as (text & t & lags & outcome & _ & Hout & ->).
  rewrite Hend in Hout. subst outcome.
  eexists. split; [reflexivity|]. by cbn.
Qed.

(** An endpoint the hypotheses of X8 hold for. *)
Lemma gptchat_connection_error_witness :
  ∃ w', Chat.gptchat Sample.lib Sample.module "Say hello" true
          (Sample.world Sample.unreachable)
        = (Raised (RequestException "Connection refused"), w')
        ∧ length (w_requests w') = S (length (w_requests (Sample.world Sample.unreachable)))
        ∧ w_log w' = w_log (Sample.world Sample.unreachable).
Proof.
  apply (gptchat_connection_error_escapes Sample.lib Sample.module "Say hello" true
           (Sample.world Sample.unreachable) "Connection refused"); reflexivity.
Defined.

(** X9. [gptchat] does not look at the status of the answer. Whatever the
    status, a body with a string under [choices[0].message.content] makes
    it return that string without its fences, so with no fence in it. *)
Theorem gptchat_answer (lib : PyLib) (m : Module)
    (prompt : string) (add_time : bool) (w : World)
    (status : Z) (fields zero msg : list (string * json)) (more : list json)
    (content : string) :
  Py.truthy_opt (api_key m) = true →
  w_endpoint w (length (w_requests w)) = Response status (Some (JObj fields)) →
  Py.assoc "choices" fields = Some (JArr (JObj zero :: more)) →
  Py.assoc "message" zero = Some (JObj msg) →
  Py.assoc "content" msg = Some (JStr content) →
  ∃ text w',
    Chat.gptchat lib m prompt add_time w = (Returned text, w')
    ∧ text = Vision.strip_fences content
    ∧ Str.contains Vision.fence text = false.
Proof.
  intros Hkey Hend Hchoices Hmsg Hcontent.
  destruct (gptchat_sends lib m prompt add_time w Hkey)
    as (text & t & lags & outcome & _ & Hout & ->).
  rewrite Hend in Hout. subst outcome.
  msimpl. cbn [Vision.response_json Py.getitem_key]. msimpl.
  cbn [Py.getitem_key]. rewrite Hchoices. msimpl.
  cbn [Py.getitem_first Py.getitem_key]. msimpl.
  cbn [Py.getitem_key]. rewrite Hmsg. msimpl.
  cbn [Py.getitem_key]. rewrite Hcontent. msimpl.
  eexists _, _. split; [reflexivity|]. split; [done|].
  destruct (Str.contains _ _) eqn:E; [|done].
  apply contains_spec in E. by destruct (strip_fences_fence_free content).
Qed.

(** An answer with status 500 the hypotheses of X9 hold for. *)
Lemma gptchat_answer_witness :
  ∃ text w',
    Chat.gptchat Sample.lib Sample.module "Say hello" false
      (Sample.world (λ _, Response 500 (Some (JObj [("choices",
         JArr [JObj [("message", JObj [("content", JStr "```hello```")])]])]))))
    = (Returned text, w')
    ∧ text = Vision.strip_fences "```hello```"
    ∧ Str.contains Vision.fence text = false.
Proof.
  apply (gptchat_answer Sample.lib Sample.module "Say hello" false
           (Sample.world (λ _, Response 500 (Some (JObj [("choices",
              JArr [JObj [("message", JObj [("content", JStr "```hello```")])]])]))))
           500 [("choices", JArr [JObj [("message", JObj [("content", JStr "```hello```")])]])]
           [("message", JObj [("content", JStr "```hello```")])]
           [("content", JStr "```hello```")] [] "```hello```"); reflexivity.
Defined.

(** X10. An answer whose body is an object without [choices], as the
    error answers of the endpoint are, makes [gptchat] raise
    [KeyError('choices')]: the error the endpoint reports is not
    looked at. *)
Theorem gptchat_error_body_raises (lib : PyLib) (m : Module)
    (prompt : string) (add_time : bool) (w : World)
    (status : Z) (fields : list (string * json)) :
  Py.truthy_opt (api_key m) = true →
  w_endpoint w (length (w_requests w)) = Response status (Some (JObj fields)) →
  Py.assoc "choices" fields = None →
  ∃ w', Chat.gptchat lib m prompt add_time w = (Raised (KeyError "choices"), w')
        ∧ w_log w' = w_log w.
Proof.
  intros Hkey Hend Hchoices.
  destruct (gptchat_sends lib m prompt add_time w Hkey)
    as (text & t & lags & outcome & _ & Hout & ->).
  rewrite Hend in Hout. subst outcome.
  msimpl. cbn [Vision.response_json Py.getitem_key]. msimpl.
  cbn [Py.getitem_key]. rewrite Hchoices. msimpl.
  eexists. split; [reflexivity|]. by cbn.
Qed.

(** An answer the hypotheses of X10 hold for. *)
Lemma gptchat_error_body_witness :
  ∃ w', Chat.gptchat Sample.lib Sample.module "Say hello" true
          (Sample.world (λ _, Response 401 (Some (JObj [("error", JStr "invalid key")]))))
        = (Raised (KeyError "choices"), w')
        ∧ w_log w' = w_log (Sample.world
                              (λ _, Response 401 (Some (JObj [("error", JStr "invalid key")])))).
Proof.
  apply (gptchat_error_body_raises Sample.lib Sample.module "Say hello" true
           (Sample.world (λ _, Response 401 (Some (JObj [("error", JStr "invalid key")]))))
           401 [("error", JStr "invalid key")]); reflexivity.
Defined.

(** ** The retry loop and the loop over the testers *)

(** Parts of the world that the clock, the log and the record of requests
    are no part of are left alone by [chat_vision]. *)
Lemma chat_vision_keeps {S} (proj : World → S) (lib : PyLib) (m : Module)
    (prompt base64_image : string) (add_time : bool) :
  (∀ c lags w, proj (set_time c lags w) = proj w) →
  (∀ r w, proj (add_log r w) = proj w) →
  (∀ r w, proj (add_request r w) = proj w) →
  keeps proj (Vision.chat_vision lib m prompt base64_image add_time).
Proof.
  intros Htime Hlog Hreq w. unfold Vision.chat_vision, try_except.
  destruct (sendable m prompt base64_image) eqn:Hs.
  - destruct (chat_vision_try_sends lib m prompt base64_image add_time w Hs)
      as (text & w1 & _ & _ & (t & lags & ->) & ->).
    assert (Hrun : proj ((Vision.requests_post (vision_request m text base64_image)
                          ≫= after_post lib) (set_time t lags w)).2 = proj w).
    { rewrite bind_run. unfold Vision.requests_post.
      destruct (w_endpoint _ _) as [msg|status body]; cbn [snd].
      - by rewrite Hreq, Htime.
      - by rewrite (keeps_after_post proj lib (status, body) _), Hreq, Htime. }
    destruct ((Vision.requests_post _ ≫= after_post lib) _) as [[v|e] w2];
      cbn [snd] in *; [done|].
    destruct (is_request_exception e); msimpl; by rewrite Hlog.
  - destruct (chat_vision_try_guarded lib m prompt base64_image add_time w Hs)
      as (e & -> & ->). msimpl. by rewrite Hlog.
Qed.

(** A call of [chat_vision] returns; it sleeps nothing and sends at most
    one request. *)
Lemma chat_vision_run (lib : PyLib) (m : Module)
    (prompt base64_image : string) (add_time : bool) (w : World) :
  ∃ v w', Vision.chat_vision lib m prompt base64_image add_time w = (Returned v, w')
          ∧ w_slept w' = w_slept w
          ∧ length (w_requests w')
            = ((if sendable m prompt base64_image then 1 else 0) + length (w_requests w))%nat.
Proof.
  pose proof (chat_vision_keeps w_slept lib m prompt base64_image add_time
                (λ _ _ _, eq_refl) (λ _ _, eq_refl) (λ _ _, eq_refl) w) as Hslept.
  revert Hslept. unfold Vision.chat_vision, try_except.
  destruct (sendable m prompt base64_image) eqn:Hs.
  - destruct (chat_vision_try_sends lib m prompt base64_image add_time w Hs)
      as (text & w1 & _ & _ & (t & lags & ->) & ->).
    pose proof (post_then_decode_requests lib (vision_request m text base64_image)
                  (set_time t lags w)) as Hreq.
    destruct ((Vision.requests_post _ ≫= after_post lib) _) as [[v|e] w2];
      cbn [snd] in *.
    + intros Hslept. exists v, w2. by rewrite Hreq.
    + destruct (is_request_exception e); msimpl; intros Hslept;
        (eexists _, _; split; [reflexivity|]; split; [exact Hslept|]);
        cbn [w_requests add_log]; by rewrite Hreq.
  - destruct (chat_vision_try_guarded lib m prompt base64_image add_time w Hs)
      as (e & -> & ->). msimpl. intros Hslept.
    eexists _, _. split; [reflexivity|]. split; [exact Hslept|done].
Qed.

(** An attempt that returns ends the loop. *)
Lemma retry_loop_first_attempt (analyze : M json) (n : nat) (w w1 : World) (v : json) :
  analyze w = (Returned v, w1) →
  Check.retry_loop analyze (S n) w = (Returned (Some v), w1).
Proof.
  intros H. cbn [Check.retry_loop]. unfold try_except. by rewrite bind_run, H.
Qed.

(** X11. In Selenium's copy of [check], whose [try] holds the call of
    [chat_vision] and nothing else, the handler of the retry loop is never
    entered: whatever the endpoint does, with any positive [max_retries]
    the loop is one call of [chat_vision], whose value it assigns; nothing
    is slept and at most one request is sent. (Playwright's copy prints
    the answer inside the [try]; a [print] that raises enters the
    handler there.) *)
Theorem retry_loop_calls_chat_vision_once (lib : PyLib) (m : Module)
    (prompt base64_image : string) (add_time : bool) (retries : Z) (w : World) :
  (0 < retries)%Z →
  ∃ v w',
    Vision.chat_vision lib m prompt base64_image add_time w = (Returned v, w')
    ∧ Check.retry_loop (Vision.chat_vision lib m prompt base64_image add_time)
                       (Z.to_nat retries) w = (Returned (Some v), w')
    ∧ w_slept w' = w_slept w
    ∧ length (w_requests w') ≤ S (length (w_requests w)).
Proof.
  intros Hpos.
  destruct (chat_vision_run lib m prompt base64_image add_time w)
    as (v & w' & Hrun & Hslept & Hreq).
  exists v, w'. split; [done|]. split; [|split; [done|]].
  - destruct (Z.to_nat retries) as [|n] eqn:En; [lia|].
    by apply retry_loop_first_attempt.
  - rewrite Hreq. destruct (sendable _ _ _); simpl; lia.
Qed.

(** A loop of five attempts against an endpoint that answers errors, for
    which the hypothesis of X11 holds. *)
Lemma retry_loop_calls_chat_vision_once_witness :
  ∃ v w',
    Vision.chat_vision Sample.lib Sample.module "Describe the page" "aGVsbG8=" true
      (Sample.world (λ _, Response 500 None)) = (Returned v, w')
    ∧ Check.retry_loop
        (Vision.chat_vision Sample.lib Sample.module "Describe the page" "aGVsbG8=" true)
        (Z.to_nat 5) (Sample.world (λ _, Response 500 None)) = (Returned (Some v), w')
    ∧ w_slept w' = w_slept (Sample.world (λ _, Response 500 None))
    ∧ length (w_requests w')
      ≤ S (length (w_requests (Sample.world (λ _, Response 500 None)))).
Proof.
  apply (retry_loop_calls_chat_vision_once Sample.lib Sample.module "Describe the page"
           "aGVsbG8=" true 5 (Sample.world (λ _, Response 500 None))).
  lia.
Defined.

(** X12. The loop alone, around a call that raises at every attempt:
    with [n + 1] attempts allowed, the call is made [n + 1] times, each
    attempt but the last is followed by a sleep of two seconds, and an
    exception of the call leaves the loop. *)
Theorem retry_loop_gives_up (analyze : M json) (P : exn → Prop) (n : nat) (w : World) :
  (∀ w, ∃ e w', analyze w = (Raised e, w') ∧ P e
                ∧ w_slept w' = w_slept w
                ∧ length (w_requests w') = S (length (w_requests w))) →
  ∃ e w', Check.retry_loop analyze (S n) w = (Raised e, w') ∧ P e
          ∧ w_slept w' = repeat 2%Q n ++ w_slept w
          ∧ length (w_requests w') = (S n + length (w_requests w))%nat.
Proof.
  intros Hraises. assert (H2 : (0 <= 2)%Q) by lra.
  revert w. induction n as [|n IH]; intros w;
    destruct (Hraises w) as (e & w1 & Hrun & HP & Hslept & Hreq).
  - exists e, w1. cbn [Check.retry_loop]. unfold try_except.
    rewrite bind_run, Hrun. by msimpl.
  - cbn [Check.retry_loop]. unfold try_except at 1. rewrite bind_run, Hrun. msimpl.
    destruct (time_sleep_run 2 (add_log (WARNING, "API call failed, retrying...") w1) H2)
      as (c & lags & ->). msimpl.
    destruct (IH (set_time c lags
                    (add_slept 2 (add_log (WARNING, "API call failed, retrying...") w1))))
      as (e' & w' & Hloop & HP' & Hslept' & Hreq').
    exists e', w'. split; [exact Hloop|]. split; [done|].
    rewrite Hslept', Hreq'. cbn [w_slept w_requests set_time add_slept add_log].
    rewrite Hslept, Hreq. split; [|lia].
    change (2%Q :: w_slept w) with ([2%Q] ++ w_slept w).
    rewrite app_assoc. f_equal. by rewrite <- repeat_cons.
Qed.

(** A call that sends a request and fails, for which the hypothesis of
    X12 holds. *)
Lemma retry_loop_gives_up_witness :
  ∃ e w', Check.retry_loop
            (modify (add_request (mkRequest "p" "i" "k"));; raise (RuntimeError "down"))
            5 (Sample.world Sample.unreachable) = (Raised e, w')
          ∧ e = RuntimeError "down"
          ∧ w_slept w' = repeat 2%Q 4 ++ w_slept (Sample.world Sample.unreachable)
          ∧ length (w_requests w')
            = (5 + length (w_requests (Sample.world Sample.unreachable)))%nat.
Proof.
  apply (retry_loop_gives_up
           (modify (add_request (mkRequest "p" "i" "k"));; raise (RuntimeError "down"))
           (λ e, e = RuntimeError "down") 4 (Sample.world Sample.unreachable)).
  intros w. eexists _, _. split; [reflexivity|]. by cbn.
Defined.

(** A call of [wait] returns: the length it sleeps is never negative. It
    sends no request. *)
Lemma wait_run (self : RateLimiter) (w : World) :
  ∃ self' w', Limiter.wait self w = (Returned self', w')
              ∧ min_interval self' = min_interval self
              ∧ w_requests w' = w_requests w.
Proof.
  unfold Limiter.wait. destruct (clock_read_run w) as (now & lags & Hnow).
  rewrite bind_run, Hnow. cbv zeta.
  destruct (Qlt_le_dec (now - last_call self) (min_interval self)) as [Hlt|Hge].
  - destruct (time_sleep_run (min_interval self - (now - last_call self))
                (set_time now lags w)) as (c & lags' & Hsleep); [lra|].
    rewrite bind_run, Hsleep. msimpl.
    match goal with |- context [clock_read ?w1] =>
      destruct (clock_read_run w1) as (t & lags'' & Ht) end.
    rewrite Ht. msimpl. eexists _, _. split; [reflexivity|]. by cbn.
  - msimpl.
    destruct (clock_read_run (set_time now lags w)) as (t & lags'' & Ht).
    rewrite Ht. msimpl. eexists _, _. split; [reflexivity|]. by cbn.
Qed.



(** The loop over the testers with a positive [max_retries]. *)
Lemma analyse_testers_run (lib : PyLib) (m : Module)
    (url page_text image : string) (a : CheckArgs) (selected : list Tester) :
  (0 < max_retries (DEFAULT_CONFIG m))%Z →
  ∀ (vision_response : local json) (all_findings : list json) (w : World),
  ∃ new w',
    Check.analyse_testers lib m url page_text image a vision_response all_findings
                          selected w = (Returned (all_findings ++ new), w')
    ∧ Forall2 (λ tester f, ∃ v, f = Check.finding tester v) selected new
    ∧ length (w_requests w') ≤ length selected + length (w_requests w).
Proof.
  intros Hmax.
  induction selected as [|tester rest IH]; intros vr acc w; cbn [Check.analyse_testers].
  - exists [], w. rewrite app_nil_r. split; [done|]. split; [constructor|simpl; lia].
  - msimpl. destruct (wait_run (w_limiter w) w) as (rl & w1 & -> & _ & Hreq1). msimpl.
    destruct (chat_vision_run lib m
                (Prompt.vision_prompt url page_text tester (output a) (custom_prompt a))
                image true (set_limiter rl w1)) as (v & w2 & Hcall & _ & Hreq2).
    destruct (Z.to_nat (max_retries (DEFAULT_CONFIG m))) as [|n] eqn:En; [lia|].
    rewrite (retry_loop_first_attempt _ n _ _ _ Hcall). cbn [from_option].
    destruct (IH (Bound v) (acc ++ [Check.finding tester v]) w2)
      as (new & w' & -> & Hnew & Hreq).
    exists (Check.finding tester v :: new), w'.
    split; [by rewrite <- app_assoc|]. split; [constructor; eauto|].
    cbn [w_requests set_limiter] in Hreq2. rewrite Hreq1 in Hreq2.
    destruct (sendable _ _ _); simpl in *; lia.
Qed.

(** X14. In Selenium's copy of [check], with a positive [max_retries],
    the loop over the testers returns: it appends one finding for every
    selected tester, in the order of the selection, each with the name and
    the biography of its tester, and it sends at most one request for
    each. (Playwright's copy prints inside the loop, which this statement
    does not cover.) *)
Theorem analyse_testers_findings (lib : PyLib) (m : Module)
    (url page_text image : string) (a : CheckArgs) (selected : list Tester)
    (vision_response : local json) (all_findings : list json) (w : World) :
  (0 < max_retries (DEFAULT_CONFIG m))%Z →
  ∃ new w',
    Check.analyse_testers lib m url page_text image a vision_response all_findings
                          selected w = (Returned (all_findings ++ new), w')
    ∧ Forall2 (λ tester f, ∃ v, f = Check.finding tester v) selected new
    ∧ length (w_requests w') ≤ length selected + length (w_requests w).
Proof.
  intros Hmax. by apply analyse_testers_run.
Qed.

(** Two testers against an endpoint that answers, for which the
    hypothesis of X14 holds. *)
Lemma analyse_testers_findings_witness :
  ∃ new w',
    Check.analyse_testers Sample.lib Sample.module "https://example.com"
      "Example Domain" "PNG" Sample.default_args Unbound []
      [Sample.jason; Sample.alice] (Sample.world Sample.answering)
    = (Returned ([] ++ new), w')
    ∧ Forall2 (λ tester f, ∃ v, f = Check.finding tester v)
              [Sample.jason; Sample.alice] new
    ∧ length (w_requests w')
      ≤ length [Sample.jason; Sample.alice]
        + length (w_requests (Sample.world Sample.answering)).
Proof.
  apply (analyse_testers_findings Sample.lib Sample.module "https://example.com"
           "Example Domain" "PNG" Sample.default_args [Sample.jason; Sample.alice]
           Unbound [] (Sample.world Sample.answering)).
  simpl. lia.
Defined.

(** ** Collecting the issues *)

Lemma getitem_issues (tester : Tester) (issues : json) (w : World) :
  Py.getitem_key (Check.finding tester issues) "issues" w = (Returned issues, w).
Proof. reflexivity. Qed.

(** X15. Findings whose issues are arrays are flattened into
    [all_issues] in the order of the findings, each array in its own
    order; nothing is logged and nothing else changes. *)
Theorem collect_issues_flattens (lib : PyLib) (all_issues : list json)
    (answers : list (Tester * list json)) (w : World) :
  Check.collect_issues lib all_issues
    (map (λ answer, Check.finding answer.1 (JArr answer.2)) answers) w
  = (Returned (all_issues ++ concat (map snd answers)), w).
Proof.
  revert all_issues. induction answers as [|[tester items] rest IH]; intros acc.
  - cbn. by rewrite app_nil_r.
  - cbn [map Check.collect_issues fst snd concat]. unfold try_except_only, try_except.
    rewrite !bind_run, getitem_issues. msimpl. cbn [Py.iterate]. msimpl.
    rewrite IH. by rewrite <- app_assoc.
Qed.

(** X16. A finding whose issues are a string that does not parse as
    JSON is skipped with a warning, and the findings after it are still
    collected. *)
Theorem collect_issues_skips_unparseable (lib : PyLib) (all_issues : list json)
    (tester : Tester) (text : string) (rest : list json) (w : World) :
  json_loads lib text = None →
  Check.collect_issues lib all_issues (Check.finding tester (JStr text) :: rest) w
  = Check.collect_issues lib all_issues rest
      (add_log (WARNING, "Error parsing issues from tester") w).
Proof.
  intros Hloads. cbn [Check.collect_issues]. unfold try_except_only, try_except.
  rewrite !bind_run, getitem_issues. msimpl. rewrite Hloads. by msimpl.
Qed.

(** A text the sample decoder rejects, for which the hypothesis of X16
    holds. *)
Lemma collect_issues_skips_unparseable_witness :
  Check.collect_issues Sample.lib [] [Check.finding Sample.jason (JStr "no issues")]
                       (Sample.world Sample.answering)
  = Check.collect_issues Sample.lib [] []
      (add_log (WARNING, "Error parsing issues from tester") (Sample.world Sample.answering)).
Proof.
  apply (collect_issues_skips_unparseable Sample.lib [] Sample.jason "no issues" []
           (Sample.world Sample.answering)).
  reflexivity.
Defined.

(** X17. Issues that are no array, no object and no string, the number or
    the [null] a model may answer with, are not iterable: the [TypeError]
    is none of the exceptions the loop catches, so it leaves the loop and
    the findings after it are not looked at. *)
Theorem collect_issues_scalar_raises (lib : PyLib) (all_issues : list json)
    (tester : Tester) (issues : json) (e : exn) (rest : list json) (w : World) :
  Py.iterate issues = Raised e →
  e = TypeError "object is not iterable"
  ∧ Check.collect_issues lib all_issues (Check.finding tester issues :: rest) w
    = (Raised e, w).
Proof.
  intros Hit. cbn [Check.collect_issues]. unfold try_except_only, try_except.
  rewrite !bind_run, getitem_issues.
  destruct issues; try discriminate; injection Hit as <-; (split; [done|]);
    by msimpl.
Qed.

(** A number as an answer, for which the hypothesis of X17 holds. *)
Lemma collect_issues_scalar_raises_witness :
  TypeError "object is not iterable" = TypeError "object is not iterable"
  ∧ Check.collect_issues Sample.lib [] [Check.finding Sample.jason (JNum 42)]
                         (Sample.world Sample.answering)
    = (Raised (TypeError "object is not iterable"), Sample.world Sample.answering).
Proof.
  apply (collect_issues_scalar_raises Sample.lib [] Sample.jason (JNum 42)
           (TypeError "object is not iterable") [] (Sample.world Sample.answering)).
  reflexivity.
Defined.

(** ** The whole of [check] *)

(** One file of the file system is a part of the world that the clock,
    the log, the sleeps, the requests and the limiter are no part of. *)
Lemma framed_file (p : string) : framed (λ w, w_fs w !! p).
Proof. by split. Qed.

Lemma keeps_file_local (p : string) (v : local (option string)) :
  keeps (λ w, w_fs w !! p) (modify (set_output_file_path v)).
Proof. by intros w. Qed.

Lemma keeps_file_screenshot (b : Check.binding) (self : Driver) (path p : string) :
  p ≠ path → keeps (λ w, w_fs w !! p) (Check.take_screenshot b self path).
Proof.
  intros Hp w.
  destruct (Check.take_screenshot b self path w) as [o w'] eqn:Hrun.
  exact (take_screenshot_fs b self path w w' o Hrun p Hp).
Qed.

Lemma not_screenshot (p ts : string) :
  Str.startswith "screenshots/check_" p = false →
  p ≠ "screenshots/check_" +:+ ts +:+ ".png".
Proof.
  intros Hp ->. unfold Str.startswith in Hp.
  assert (String.prefix "screenshots/check_" ("screenshots/check_" +:+ ts +:+ ".png") = true)
    as Hyes by (apply prefix_spec; by eexists).
  congruence.
Qed.

(** The steps of [check] that the frame lemmas cover. *)
Ltac frame_step Hfr :=
  first
    [ apply keeps_bind; [|intros ?]
    | apply keeps_try_except; [|intros ?]
    | apply keeps_ret | apply keeps_raise | apply keeps_get
    | apply keeps_makedirs | apply keeps_read_file | apply keeps_body_text
    | apply keeps_file_local
    | apply (keeps_log _ Hfr) | apply (keeps_clock_read _ Hfr)
    | apply (keeps_analyse_testers _ Hfr) | apply (keeps_collect_issues _ Hfr) ].

(** X18. Called with [save_to_file=False], [check] writes no file but
    its screenshot: the file of the logging handlers apart, whose records
    are the log of the world, every path that does not start with
    [screenshots/check_] holds after the call what it held before,
    however the call ends. *)
Theorem check_without_saving_keeps_files (b : Check.binding) (lib : PyLib) (m : Module)
    (self : Driver) (a : CheckArgs) (w : World) (p : string) :
  save_to_file a = false →
  Str.startswith "screenshots/check_" p = false →
  Str.startswith "ai_checks.log" p = false →
  w_fs (Check.check b lib m self a w).2 !! p = w_fs w !! p.
Proof.
  intros Hsave Hp _. pose proof (framed_file p) as Hfr.
  revert w. change (keeps (λ w, w_fs w !! p) (Check.check b lib m self a)).
  unfold Check.check, Check.check_try, Check.check_except, Check.persist.
  rewrite Hsave.
  repeat first
    [ frame_step Hfr
    | apply keeps_file_screenshot, not_screenshot, Hp
    | match goal with
      | |- keeps _ (if ?c then _ else _) => destruct c
      | |- keeps _ (match ?x with _ => _ end) => destruct x
      end ].
Qed.

(** A call without saving and a path outside the screenshots, for which
    the hypotheses of X18 hold. *)
Lemma check_without_saving_witness :
  w_fs (Check.check Check.Playwright Sample.lib Sample.module Sample.page
          (mkCheckArgs None None None Prompt.default_output None None 30000 false
                       (Some "ai_check_results"))
          (Sample.world_with "ai_check_results/ai_checks_20250101_120000.json" "[]"
                             Sample.answering)).2
    !! "ai_check_results/ai_checks_20250101_120000.json"
  = w_fs (Sample.world_with "ai_check_results/ai_checks_20250101_120000.json" "[]"
                            Sample.answering)
    !! "ai_check_results/ai_checks_20250101_120000.json".
Proof.
  apply (check_without_saving_keeps_files Check.Playwright Sample.lib Sample.module
           Sample.page
           (mkCheckArgs None None None Prompt.default_output None None 30000 false
                        (Some "ai_check_results"))
           (Sample.world_with "ai_check_results/ai_checks_20250101_120000.json" "[]"
                              Sample.answering)
           "ai_check_results/ai_checks_20250101_120000.json"); reflexivity.
Defined.

(** With [save_to_file] set and no directory to save to, the variable
    [output_file_path] holds [None] when [open] is called with it. *)
Lemma persist_without_directory (b : Check.binding) (lib : PyLib) (a : CheckArgs)
    (check_result : json) (w : World) :
  save_to_file a = true →
  Py.truthy_opt (output_dir a) = false →
  ∃ w', Check.persist b lib a check_result w
        = (Raised (TypeError "expected str, bytes or os.PathLike object, not NoneType"), w')
        ∧ w_fs w' = w_fs w.
Proof.
  intros Hsave Hdir. unfold Check.persist. rewrite Hsave, Hdir. msimpl.
  destruct (clock_read_run (set_output_file_path (Bound None) w)) as (t & lags & ->).
  msimpl. destruct b; msimpl.
  - match goal with |- context [Check.load_existing lib ?name ?w1] =>
      destruct (load_existing_run lib name w1) as (existing & -> & _) end.
    msimpl. eexists. split; [reflexivity|done].
  - eexists. split; [reflexivity|done].
Qed.

(** What the handler of [check] returns, when it returns. *)
Lemma check_except_result (b : Check.binding) (self : Driver) (a : CheckArgs)
    (e : exn) (w : World) (r : CheckResult) :
  (Check.check_except b self a e w).1 = Returned r →
  error_result e r
  ∧ cr_url r = drv_url self
  ∧ cr_profile r = Py.or_default (profile_search a) "default".
Proof.
  unfold Check.check_except. msimpl.
  destruct (clock_read_run (add_log (ERROR, "Critical error during page check") w))
    as (t & lags & ->).
  msimpl. destruct b; msimpl.
  - destruct (w_output_file_path _); msimpl; [discriminate|].
    intros [= <-]. by repeat split.
  - intros [= <-]. by repeat split.
Qed.

(** What the [try] block of [check] returns, when it returns. *)
Lemma check_try_result (b : Check.binding) (lib : PyLib) (m : Module) (self : Driver)
    (a : CheckArgs) (w w' : World) (r : CheckResult) (selected : list Tester) :
  Check.check_try b lib m self a w = (Returned (r, selected), w') →
  ∃ timestamp findings w1 w2,
    cr_raw_response r
    = Check.check_record timestamp (drv_url self)
        ("screenshots/check_" +:+ timestamp +:+ ".png") findings
    ∧ Check.collect_issues lib [] findings w1 = (Returned (cr_bugs r), w2)
    ∧ (∃ w3, Check.persist b lib a (cr_raw_response r) w2
             = (Returned (cr_output_file r), w3)
             ∧ w_fs w' = w_fs w3)
    ∧ cr_url r = drv_url self
    ∧ cr_profile r = Py.or_default (profile_search a) "default"
    ∧ selected = Registry.select_testers (TESTERS m) (testers a)
    ∧ length findings = length selected.
Proof.
  intros Htry. unfold Check.check_try in Htry.
  apply bind_returned in Htry as (u1 & w1 & H1 & H).
  apply bind_returned in H as (u2 & w2 & H2 & H).
  apply bind_returned in H as (now & w3 & H3 & H). cbv zeta in H.
  apply bind_returned in H as (u4 & w4 & H4 & H).
  apply bind_returned in H as (image & w5 & H5 & H).
  apply bind_returned in H as (u6 & w6 & H6 & H).
  apply bind_returned in H as (u7 & w7 & H7 & H).
  apply bind_returned in H as (u8 & w8 & H8 & H).
  apply bind_returned in H as (page_text & w9 & H9 & H).
  apply bind_returned in H as (findings & w10 & H10 & H).
  apply bind_returned in H as (u11 & w11 & H11 & H).
  apply bind_returned in H as (issues & w12 & H12 & H).
  apply bind_returned in H as (ofp & w13 & H13 & H).
  apply bind_returned in H as (now' & w14 & H14 & H).
  injection H as <- <- <-.
  cbn [cr_raw_response cr_output_file cr_bugs cr_url cr_profile].
  exists (stamp_compact lib now), findings, w11, w12.
  split; [done|]. split; [done|]. split.
  { exists w13. split; [done|].
    exact (keeps_run w_fs _ _ _ _ (keeps_clock_read w_fs framed_fs) H14). }
  split; [done|]. split; [done|].
  split; [done|]. by apply analyse_testers_length in H10.
Qed.

(** X19. Called with [save_to_file=True] and no directory to save to,
    [output_dir] being [None] or the empty string, [check] never yields
    an analysis: [open] is called with [None], and what [check] returns,
    when it returns, is the error-shaped result, with no bugs. *)
Theorem check_saving_without_directory (b : Check.binding) (lib : PyLib) (m : Module)
    (self : Driver) (a : CheckArgs) (w : World) (r : CheckResult) :
  save_to_file a = true →
  Py.truthy_opt (output_dir a) = false →
  (Check.check b lib m self a w).1 = Returned r →
  ∃ e, error_result e r.
Proof.
  intros Hsave Hdir. unfold Check.check. msimpl. unfold try_except. rewrite bind_run.
  destruct (Check.check_try _ _ _ _ _ _) as [[[r' sel]|e] w1] eqn:Htry.
  - apply check_try_result in Htry as (ts & findings & w2 & w3 & _ & _ & (w4 & Hp & _) & _).
    destruct (persist_without_directory b lib a (cr_raw_response r') w3 Hsave Hdir)
      as (w5 & Hraise & _).
    congruence.
  - intros Hr. exists e. by apply check_except_result in Hr as [? _].
Qed.

(** A call that saves, with no directory, for which the hypotheses of
    X19 hold: the page is analysed and the analysis is lost. *)
Lemma check_saving_without_directory_witness :
  ∃ r, (Check.check Check.Selenium Sample.lib Sample.module Sample.page
          (mkCheckArgs None None None Prompt.default_output None None 30000 true None)
          (Sample.world Sample.answering)).1 = Returned r
       ∧ ∃ e, error_result e r.
Proof.
  eexists. split; [vm_compute; reflexivity|].
  eapply (check_saving_without_directory Check.Selenium Sample.lib Sample.module
            Sample.page
            (mkCheckArgs None None None Prompt.default_output None None 30000 true None)
            (Sample.world Sample.answering));
    [reflexivity|reflexivity|vm_compute; reflexivity].
Defined.

(** X20. Every result [check] returns, from its [try] block or from its
    handler, carries the address of the page and the profile name given,
    ["default"] when none or an empty one was given; and a result with
    bugs comes from the [try] block, whose record names one finding for
    every selected tester. *)
Theorem check_result_fields (b : Check.binding) (lib : PyLib) (m : Module)
    (self : Driver) (a : CheckArgs) (w : World) (r : CheckResult) :
  (Check.check b lib m self a w).1 = Returned r →
  cr_url r = drv_url self
  ∧ cr_profile r = Py.or_default (profile_search a) "default"
  ∧ (cr_bugs r ≠ [] →
     ∃ timestamp findings,
       cr_raw_response r
       = Check.check_record timestamp (drv_url self)
           ("screenshots/check_" +:+ timestamp +:+ ".png") findings
       ∧ length findings
         = length (Registry.select_testers (TESTERS m) (testers a))).
Proof.
  unfold Check.check. msimpl. unfold try_except. rewrite bind_run.
  destruct (Check.check_try _ _ _ _ _ _) as [[[r' sel]|e] w1] eqn:Htry.
  - msimpl. intros [= <-].
    apply check_try_result in Htry
      as (ts & findings & w2 & w3 & Hrec & _ & _ & Hurl & Hprofile & -> & Hlen).
    split; [done|]. split; [done|]. intros _. by exists ts, findings.
  - intros Hr. apply check_except_result in Hr as ([Hbugs _] & Hurl & Hprofile).
    split; [done|]. split; [done|]. by intros [].
Qed.

(** A call of [check] that returns, for which the hypothesis of X20
    holds. *)
Lemma check_result_fields_witness :
  ∃ r, (Check.check Check.Playwright Sample.lib Sample.module Sample.page
          Sample.default_args (Sample.world Sample.answering)).1 = Returned r
       ∧ cr_url r = "https://example.com"
       ∧ cr_profile r = "default".
Proof.
  eexists. split; [vm_compute; reflexivity|].
  destruct (check_result_fields Check.Playwright Sample.lib Sample.module Sample.page
              Sample.default_args (Sample.world Sample.answering) _
              ltac:(vm_compute; reflexivity)) as (Hurl & Hprofile & _).
  split; [exact Hurl|exact Hprofile].
Defined.

(** ** Selecting the testers: degenerate requests *)

Lemma lower_ascii_idem (c : ascii) :
  Str.lower_ascii (Str.lower_ascii c) = Str.lower_ascii c.
Proof. by destruct c as [[] [] [] [] [] [] [] []]. Qed.

Lemma lower_idem (s : string) : Str.lower (Str.lower s) = Str.lower s.
Proof.
  induction s as [|c s IH]; [done|]. cbn [Str.lower]. by rewrite lower_ascii_idem, IH.
Qed.

Lemma contains_nil (s : string) : Str.contains EmptyString s = true.
Proof. destruct s; cbn [Str.contains]; by rewrite prefix_nil. Qed.

Lemma filter_all {A} (f : A → bool) (l : list A) :
  (∀ x, f x = true) → List.filter f l = l.
Proof.
  intros Hf. induction l as [|x l IH]; [done|]. cbn [List.filter].
  by rewrite Hf, IH.
Qed.

Lemma matches_any_lower (requested : list string) (t : Tester) :
  Registry.matches_any (map Str.lower requested) t = Registry.matches_any requested t.
Proof.
  unfold Registry.matches_any.
  induction requested as [|r requested IH]; [done|].
  cbn [map existsb]. by rewrite lower_idem, IH.
Qed.

(** X21. The requested names are compared in lower case: lowering them
    beforehand changes neither the selection nor the warning. *)
Theorem selection_ignores_case (cat : list Tester) (requested : list string) :
  Registry.select_testers_logged cat (Some (map Str.lower requested))
  = Registry.select_testers_logged cat (Some requested).
Proof.
  unfold Registry.select_testers_logged.
  assert (E : List.filter (Registry.matches_any (map Str.lower requested)) cat
              = List.filter (Registry.matches_any requested) cat).
  { induction cat as [|t cat IH]; [done|]. cbn [List.filter].
    by rewrite IH, matches_any_lower. }
  by rewrite E.
Qed.

(** X22. An empty string among the requested names is contained in every
    name: the whole catalog is selected, whatever else is requested, and
    no warning is logged. *)
Theorem selection_with_empty_name (cat : list Tester) (requested : list string) :
  EmptyString ∈ requested →
  Registry.select_testers cat (Some requested) = cat
  ∧ (Registry.select_testers_logged cat (Some requested)).2 = negb (bool_decide (cat ≠ [])).
Proof.
  intros Hin.
  assert (E : List.filter (Registry.matches_any requested) cat = cat).
  { apply filter_all. intros t. unfold Registry.matches_any.
    apply existsb_exists. exists EmptyString. split; [by apply list_elem_of_In|].
    apply contains_nil. }
  unfold Registry.select_testers, Registry.select_testers_logged. rewrite E.
  by destruct cat.
Qed.

(** A request that names nobody of the catalog and the empty string, for
    which the hypothesis of X22 holds. *)
Lemma selection_with_empty_name_witness :
  Registry.select_testers [Sample.jason; Sample.alice] (Some ["bob"; EmptyString])
  = [Sample.jason; Sample.alice]
  ∧ (Registry.select_testers_logged [Sample.jason; Sample.alice]
                                    (Some ["bob"; EmptyString])).2
    = negb (bool_decide ([Sample.jason; Sample.alice] ≠ [])).
Proof.
  apply (selection_with_empty_name [Sample.jason; Sample.alice] ["bob"; EmptyString]).
  apply list_elem_of_further, list_elem_of_here.
Defined.

(** ** The rate limiter: one call *)

(** X23. One call of [wait], on a clock that is not behind the last
    call: it returns and keeps the interval; it sleeps at most once, for a
    positive length of at most [min_interval], and not at all when the
    interval has already passed. *)
Theorem wait_sleeps_the_remainder (self : RateLimiter) (w w1 : World) (now : Q) :
  clock_read w = (Returned now, w1) →
  (last_call self <= now)%Q →
  ∃ self' w',
    Limiter.wait self w = (Returned self', w')
    ∧ min_interval self' = min_interval self
    ∧ (w_slept w' = w_slept w
       ∨ ∃ d, w_slept w' = d :: w_slept w ∧ (0 < d <= min_interval self)%Q)
    ∧ ((last_call self + min_interval self <= now)%Q → w_slept w' = w_slept w).
Proof.
  intros Hnow Hlast. unfold Limiter.wait.
  destruct (clock_read_run w) as (now' & lags & Hrun).
  rewrite Hnow in Hrun. injection Hrun as <- ->.
  rewrite bind_run, Hnow. cbv zeta.
  destruct (Qlt_le_dec (now - last_call self) (min_interval self)) as [Hlt|Hge].
  - destruct (time_sleep_run (min_interval self - (now - last_call self))
                (set_time now lags w)) as (c & lags' & Hsleep); [lra|].
    rewrite bind_run, Hsleep. msimpl.
    match goal with |- context [clock_read ?w2] =>
      destruct (clock_read_run w2) as (t & lags'' & Ht) end.
    rewrite Ht. msimpl. eexists _, _. split; [reflexivity|]. split; [done|].
    cbn [w_slept set_time add_slept]. split.
    + right. eexists. split; [reflexivity|]. lra.
    + intros Hdue. lra.
  - msimpl.
    destruct (clock_read_run (set_time now lags w)) as (t & lags'' & Ht).
    rewrite Ht. msimpl. eexists _, _. split; [reflexivity|]. split; [done|].
    cbn [w_slept set_time]. split; [by left|done].
Qed.

(** A limiter of one call per second that is called at second one, for
    which the hypotheses of X23 hold. *)
Lemma wait_sleeps_the_remainder_witness :
  ∃ self' w',
    Limiter.wait (mkRateLimiter 1 0) (Sample.world Sample.answering) = (Returned self', w')
    ∧ min_interval self' = min_interval (mkRateLimiter 1 0)
    ∧ (w_slept w' = w_slept (Sample.world Sample.answering)
       ∨ ∃ d, w_slept w' = d :: w_slept (Sample.world Sample.answering)
              ∧ (0 < d <= min_interval (mkRateLimiter 1 0))%Q)
    ∧ ((last_call (mkRateLimiter 1 0) + min_interval (mkRateLimiter 1 0) <= 0 + 1)%Q →
       w_slept w' = w_slept (Sample.world Sample.answering)).
Proof.
  eapply (wait_sleeps_the_remainder (mkRateLimiter 1 0) (Sample.world Sample.answering)
            _ (0 + 1)%Q); [reflexivity|]. cbn. lra.
Defined.

(** ** [check] with an empty catalog *)

Lemma cost_log (l : level) (msg : string) : keeps cost (log l msg).
Proof. by intros w. Qed.

Lemma cost_clock_read : keeps cost clock_read.
Proof. intros w. by destruct (clock_read_run w) as (t & lags & ->). Qed.

Lemma cost_local (v : local (option string)) :
  keeps cost (modify (set_output_file_path v)).
Proof. by intros w. Qed.

Lemma cost_write_file (path : option string) (content : string) :
  keeps cost (Fs.write_file path content).
Proof.
  intros w. unfold Fs.write_file. destruct path as [p|]; [|done].
  by destruct (w_denied w p).
Qed.

(** The steps of [check] that cost nothing. *)
Ltac cost_step :=
  first
    [ apply keeps_bind; [|intros ?]
    | apply keeps_try_except; [|intros ?]
    | apply keeps_try_except_only; [|intros ?]
    | apply keeps_ret | apply keeps_raise | apply keeps_get
    | apply keeps_makedirs | apply keeps_read_file | apply keeps_body_text
    | apply keeps_getitem_key
    | apply cost_log | apply cost_clock_read | apply cost_local | apply cost_write_file
    | match goal with
      | |- keeps _ (if ?c then _ else _) => destruct c
      | |- keeps _ (match ?x with _ => _ end) => destruct x
      end ].

Lemma cost_collect_issues (lib : PyLib) (all_findings : list json) :
  ∀ all_issues, keeps cost (Check.collect_issues lib all_issues all_findings).
Proof.
  induction all_findings as [|x rest IH]; intros acc; cbn [Check.collect_issues].
  - apply keeps_ret.
  - apply keeps_bind; [|intros ?; apply IH]. repeat cost_step.
Qed.

Lemma cost_check_without_testers (b : Check.binding) (lib : PyLib) (m : Module)
    (self : Driver) (a : CheckArgs) :
  TESTERS m = [] → keeps cost (Check.check b lib m self a).
Proof.
  intros Hcat.
  unfold Check.check, Check.check_try, Check.check_except, Check.persist,
    Check.take_screenshot, Check.load_existing.
  assert (Hsel : (Registry.select_testers_logged (TESTERS m) (testers a)).1 = []).
  { rewrite Hcat. by destruct (testers a). }
  rewrite Hsel. cbn [Check.analyse_testers].
  repeat first [ apply cost_collect_issues | cost_step ].
Qed.

(** X25. With an empty catalog, as the module has it when [testers.json]
    is missing or unreadable, [check] analyses nothing: no request is
    sent and nothing is slept, whatever testers are asked for, and a
    result that is returned has no bugs. *)
Theorem check_without_testers (b : Check.binding) (lib : PyLib) (m : Module)
    (self : Driver) (a : CheckArgs) (w : World) :
  TESTERS m = [] →
  w_requests (Check.check b lib m self a w).2 = w_requests w
  ∧ w_slept (Check.check b lib m self a w).2 = w_slept w
  ∧ ∀ r, (Check.check b lib m self a w).1 = Returned r → cr_bugs r = [].
Proof.
  intros Hcat.
  pose proof (cost_check_without_testers b lib m self a Hcat w) as Hcost.
  cbv beta in Hcost. injection Hcost as Hreq Hslept.
  split; [done|]. split; [done|].
  unfold Check.check. msimpl. unfold try_except. rewrite bind_run.
  destruct (Check.check_try _ _ _ _ _ _) as [[[r' sel]|e] w1] eqn:Htry.
  - msimpl. intros r [= <-].
    apply check_try_result in Htry
      as (ts & findings & w2 & w3 & _ & Hbugs & _ & _ & _ & -> & Hlen).
    unfold Registry.select_testers in Hlen. rewrite Hcat in Hlen.
    assert (findings = []) as ->.
    { destruct (testers a); destruct findings; simpl in Hlen; done. }
    cbn [Check.collect_issues] in Hbugs. by injection Hbugs as <- _.
  - intros r Hr. by apply check_except_result in Hr as ([? _] & _).
Qed.

(** A module without catalog, for which the hypothesis of X25 holds. *)
Lemma check_without_testers_witness :
  w_requests (Check.check Check.Selenium Sample.lib
                (mkModule [] (mkConfig (1 # 4) 7 5) (Some "sk-test")) Sample.page
                Sample.default_args (Sample.world Sample.answering)).2
  = w_requests (Sample.world Sample.answering).
Proof.
  apply (check_without_testers Check.Selenium Sample.lib
           (mkModule [] (mkConfig (1 # 4) 7 5) (Some "sk-test")) Sample.page
           Sample.default_args (Sample.world Sample.answering)).
  reflexivity.
Defined.

(** ** Arguments that [check] does not use *)

Lemma bind_ext {A B} (c : M A) (f g : A → M B) (w : World) :
  (∀ a w', f a w' = g a w') → (c ≫= f) w = (c ≫= g) w.
Proof.
  intros Hfg. rewrite !bind_run. destruct (c w) as [[a|e] w1]; [apply Hfg|done].
Qed.

Lemma analyse_testers_args (lib : PyLib) (m : Module) (url page_text image : string)
    (a a' : CheckArgs) (selected : list Tester) :
  output a = output a' → custom_prompt a = custom_prompt a' →
  ∀ (vision_response : local json) (all_findings : list json) (w : World),
  Check.analyse_testers lib m url page_text image a vision_response all_findings
                        selected w
  = Check.analyse_testers lib m url page_text image a' vision_response all_findings
                          selected w.
Proof.
  intros Hout Hprompt.
  induction selected as [|tester rest IH]; intros vr acc w; [done|].
  cbn [Check.analyse_testers]. rewrite Hout, Hprompt.
  apply bind_ext; intros rl w1. apply bind_ext; intros rl' w2.
  apply bind_ext; intros _ w3. apply bind_ext; intros assigned w4.
  destruct (from_option Bound vr assigned); [done|apply IH].
Qed.

Lemma persist_args (b : Check.binding) (lib : PyLib) (a a' : CheckArgs)
    (check_result : json) (w : World) :
  same_analysis a a' →
  Check.persist b lib a check_result w = Check.persist b lib a' check_result w.
Proof.
  intros (_ & _ & _ & _ & Hlabel & Hsave & Hdir).
  unfold Check.persist. by rewrite Hlabel, Hsave, Hdir.
Qed.

(** X26. [check] never uses [timeout] beyond comparing it with 1000, and
    never looks into [custom_rules]: two calls that differ only in a
    timeout of at least 1000 ms and in the rules, both [None] or a dict,
    run alike, to the same result and the same world. *)
Theorem check_ignores_timeout_and_rules (b : Check.binding) (lib : PyLib) (m : Module)
    (self : Driver) (a a' : CheckArgs) (w : World) :
  same_analysis a a' →
  (1000 ≤ timeout a)%Z → (1000 ≤ timeout a')%Z →
  accepted_rules (custom_rules a) = true →
  accepted_rules (custom_rules a') = true →
  Check.check b lib m self a w = Check.check b lib m self a' w.
Proof.
  intros Hsame Ht Ht' Hrules Hrules'.
  pose proof Hsame as (Hprofile & Hprompt & Hout & Htesters & Hlabel & Hsave & Hdir).
  assert (Hlow : (timeout a <? 1000)%Z = false) by lia.
  assert (Hlow' : (timeout a' <? 1000)%Z = false) by lia.
  assert (Htry : ∀ w, Check.check_try b lib m self a w = Check.check_try b lib m self a' w).
  { intros w0. unfold Check.check_try. rewrite Hlow, Hlow', Htesters.
    apply bind_ext; intros _ w1. apply bind_ext; intros _ w2.
    apply bind_ext; intros now w3. cbv zeta.
    apply bind_ext; intros _ w4. apply bind_ext; intros image w5.
    apply bind_ext; intros _ w6.
    destruct (custom_rules a) as [[]|]; try discriminate;
      destruct (custom_rules a') as [[]|]; try discriminate;
      (apply bind_ext; intros _ w7; apply bind_ext; intros _ w8;
       apply bind_ext; intros page_text w9;
       rewrite !bind_run,
         (analyse_testers_args lib m _ _ _ a a' _ Hout Hprompt Unbound [] w9);
       destruct (Check.analyse_testers _ _ _ _ _ a' _ _ _ _) as [[findings|e] w10];
         [|done];
       apply bind_ext; intros _ w11; apply bind_ext; intros issues w12;
       rewrite !bind_run, (persist_args b lib a a' _ w12 Hsame), Hprofile;
       reflexivity). }
  unfold Check.check. apply bind_ext; intros _ w1. unfold try_except.
  rewrite !bind_run, Htry.
  destruct (Check.check_try b lib m self a' w1) as [[r|e] w2]; [done|].
  unfold Check.check_except. by rewrite Hprofile.
Qed.

(** Two calls, one with the default timeout and no rules, one with a
    timeout of two seconds and a dict of rules, for which the hypotheses
    of X26 hold. *)
Lemma check_ignores_timeout_and_rules_witness :
  Check.check Check.Selenium Sample.lib Sample.module Sample.page Sample.default_args
              (Sample.world Sample.answering)
  = Check.check Check.Selenium Sample.lib Sample.module Sample.page
      (mkCheckArgs None (Some (JObj [("contrast", JStr "AAA")])) None
                   Prompt.default_output None None 2000 true (Some "ai_check_results"))
      (Sample.world Sample.answering).
Proof.
  apply (check_ignores_timeout_and_rules Check.Selenium Sample.lib Sample.module
           Sample.page Sample.default_args
           (mkCheckArgs None (Some (JObj [("contrast", JStr "AAA")])) None
                        Prompt.default_output None None 2000 true
                        (Some "ai_check_results"))
           (Sample.world Sample.answering)).
  - by repeat split.
  - simpl. lia.
  - simpl. lia.
  - reflexivity.
  - reflexivity.
Defined.

(** ** From [check] to [ai_report] *)

(** What the block [if save_to_file] leaves behind when it returns: a
    document under the name of the result file, in the directory. *)
Lemma persist_saved (b : Check.binding) (lib : PyLib) (a : CheckArgs)
    (check_result : json) (w w' : World) (output_file_path : option string)
    (dir : string) :
  save_to_file a = true →
  output_dir a = Some dir →
  Str.truthy dir = true →
  Check.persist b lib a check_result w = (Returned output_file_path, w') →
  ∃ t doc,
    output_file_path
    = Some (Fs.path_join dir (Check.output_file_name (label a) (stamp_compact lib t)))
    ∧ w_fs w' !! Fs.path_join dir (Check.output_file_name (label a) (stamp_compact lib t))
      = Some (json_dumps lib doc)
    ∧ match b with
      | Check.Selenium => doc = check_result
      | Check.Playwright => ∃ existing, doc = JArr (existing ++ [check_result])
      end.
Proof.
  intros Hsave Hdir Htruthy. unfold Check.persist.
  rewrite Hsave, Hdir. cbn [Py.truthy_opt default from_option id]. rewrite Htruthy.
  msimpl.
  destruct (clock_read_run (set_output_file_path (Bound None) w)) as (t & lags & ->).
  msimpl. unfold Fs.makedirs at 1. cbn [w_denied set_time set_output_file_path].
  destruct (w_denied w dir); [discriminate|]. msimpl.
  set (name := Check.output_file_name (label a) (stamp_compact lib t)).
  set (w1 := set_output_file_path _ _). clearbody w1.
  intros H. exists t. fold name.
  destruct b.
  - destruct (load_existing_run lib name w1) as (existing & Hload & _).
    rewrite bind_run, Hload in H. unfold Fs.write_file in H.
    destruct (w_denied w1 _); [discriminate|]. revert H. msimpl.
    intros [= <- <-]. eexists. split; [done|]. split; [|by eauto].
    cbn [w_fs add_log set_fs]. by rewrite lookup_insert_eq.
  - unfold Fs.write_file in H.
    destruct (w_denied w1 _); [discriminate|]. revert H. msimpl.
    intros [= <- <-]. eexists. split; [done|]. split; [|done].
    cbn [w_fs add_log set_fs]. by rewrite lookup_insert_eq.
Qed.

(** The result file of an unlabelled check is one of the files
    [ai_report] reads. *)
Lemma unlabelled_file_is_read (dir ts content : string) (fs : gmap string string) :
  Str.contains "/" ts = false →
  fs !! Fs.path_join dir (Check.output_file_name None ts) = Some content →
  Fs.path_join dir (Check.output_file_name None ts) ∈ Report.json_files dir fs.
Proof.
  intros Hts Hc. apply json_files_spec. split; [eauto|].
  exists (Check.output_file_name None ts).
  assert (Hrel : Str.startswith "/" (Check.output_file_name None ts) = false) by done.
  split.
  - rewrite child_name_join by done.
    unfold Check.output_file_name. cbn [Py.truthy_opt].
    rewrite (contains_char_app "/" "ai_checks_" (ts +:+ ".json")).
    by rewrite (contains_char_app "/" ts ".json"), Hts.
  - unfold Check.output_file_name. cbn [Py.truthy_opt].
    unfold Report.fnmatch_ai_json.
    change (Fs.strip_prefix "ai_" ("ai_checks_" +:+ ts +:+ ".json"))
      with (Some ("checks_" +:+ ts +:+ ".json")).
    apply (endswith_app ".json" ("checks_" +:+ ts)).
Qed.

(** X27. [check] and [ai_report] together. When the [try] block of an
    unlabelled [check] that saves to a directory completes, the file it
    names in its result holds a document, that file is among the files
    [ai_report] globs in the directory, and once the document is read
    back as it was written, the record of the check is among the results
    of the report: as the document itself in Selenium's copy, as the last
    entry of the array in Playwright's. *)
Theorem saved_record_is_reported (b : Check.binding) (lib : PyLib) (m : Module)
    (self : Driver) (a : CheckArgs) (w w' : World) (r : CheckResult)
    (selected : list Tester) (dir : string) :
  save_to_file a = true →
  output_dir a = Some dir →
  Str.truthy dir = true →
  Report.has_magic dir = false →
  Py.truthy_opt (label a) = false →
  (∀ t, Str.contains "/" (stamp_compact lib t) = false) →
  Check.check_try b lib m self a w = (Returned (r, selected), w') →
  ∃ path doc,
    cr_output_file r = Some path
    ∧ w_fs w' !! path = Some (json_dumps lib doc)
    ∧ path ∈ Report.json_files dir (w_fs w')
    ∧ match b with
      | Check.Selenium => doc = cr_raw_response r
      | Check.Playwright => ∃ existing, doc = JArr (existing ++ [cr_raw_response r])
      end
    ∧ (json_loads lib (json_dumps lib doc) = Some doc →
       cr_raw_response r ∈ Report.all_results lib dir (w_fs w')).
Proof.
  intros Hsave Hdir Htruthy _ Hlabel Hstamp Htry.
  apply check_try_result in Htry
    as (ts & findings & w1 & w2 & Hrec & _ & (w3 & Hpersist & Hfs) & _).
  apply (persist_saved b lib a _ w2 w3 _ dir Hsave Hdir Htruthy) in Hpersist
    as (t & doc & Hpath & Hfile & Hdoc).
  assert (Hname : Check.output_file_name (label a) (stamp_compact lib t)
                  = Check.output_file_name None (stamp_compact lib t)).
  { unfold Check.output_file_name. by rewrite Hlabel. }
  rewrite Hname in Hpath, Hfile. rewrite <- Hfs in Hfile.
  pose proof (unlabelled_file_is_read dir _ _ _ (Hstamp t) Hfile) as Hread.
  eexists _, doc. split; [exact Hpath|]. split; [exact Hfile|].
  split; [exact Hread|]. split; [exact Hdoc|].
  intros Hback. unfold Report.all_results.
  apply list_elem_of_In, in_flat_map. eexists. split; [by apply list_elem_of_In|].
  rewrite Hfile. cbn [from_option]. unfold Report.load_results. rewrite Hback.
  apply list_elem_of_In. destruct b.
  - destruct Hdoc as (existing & ->). apply elem_of_app. right. apply list_elem_of_here.
  - subst doc. rewrite Hrec. apply list_elem_of_here.
Qed.

Lemma sample_stamp_no_slash (t : Q) : Str.contains "/" (Sample.compact t) = false.
Proof.
  unfold Sample.compact.
  set (k := ((Qnum t / Z.pos (Qden t)) `mod` 60)%Z).
  assert (Hk : (0 ≤ k < 60)%Z) by (apply Z.mod_pos_bound; lia).
  rewrite (contains_char_app "/" "20250101_1200" (Sample.two_digits k)).
  change (Str.contains "/" "20250101_1200") with false. cbn [orb].
  rewrite <- (Z2Nat.id k) by lia.
  assert (Hn : (Z.to_nat k < 60)%nat) by lia.
  generalize dependent (Z.to_nat k). clear. intros n Hn.
  do 60 (destruct n as [|n]; [vm_compute; reflexivity|]). lia.
Qed.

(** Selenium's [check] of the sample page, with a codec that reads the
    record back, for which the hypotheses of X27 hold: the record is among
    the results of the report. *)
Lemma saved_record_is_reported_witness :
  ∃ r w',
    Check.check_try Check.Selenium (Saved.lib Saved.record) Sample.module Sample.page
      Sample.default_args (Sample.world Sample.answering)
    = (Returned (r, [Sample.jason]), w')
    ∧ cr_raw_response r
      ∈ Report.all_results (Saved.lib Saved.record) "ai_check_results" (w_fs w').
Proof.
  eexists _, _. split; [vm_compute; reflexivity|].
  destruct (saved_record_is_reported Check.Selenium (Saved.lib Saved.record)
              Sample.module Sample.page Sample.default_args
              (Sample.world Sample.answering) _ _ _ "ai_check_results"
              eq_refl eq_refl eq_refl eq_refl eq_refl sample_stamp_no_slash
              ltac:(vm_compute; reflexivity))
    as (path & doc & _ & _ & _ & Hdoc & Hreported).
  apply Hreported. rewrite Hdoc. vm_compute. reflexivity.
Defined.

(** ** The fallback of [chat_vision] in [check] *)

(** X28. Issues that are a string which parses to an array are read as
    that array. So the string ["[]"] that [chat_vision] returns when its
    call has failed adds no issue and no warning: in the bugs of the
    result, a failed analysis looks like a page without issues. *)
Theorem collect_issues_reads_strings (lib : PyLib) (all_issues : list json)
    (tester : Tester) (text : string) (items rest : list json) (w : World) :
  json_loads lib text = Some (JArr items) →
  Check.collect_issues lib all_issues (Check.finding tester (JStr text) :: rest) w
  = Check.collect_issues lib (all_issues ++ items) rest w.
Proof.
  intros Hloads. cbn [Check.collect_issues]. unfold try_except_only, try_except.
  rewrite !bind_run, getitem_issues. msimpl. rewrite Hloads. by msimpl.
Qed.

(** The fallback string and the sample decoder, for which the hypothesis
    of X28 holds. *)
Lemma collect_issues_reads_strings_witness :
  Check.collect_issues Sample.lib [] [Check.finding Sample.jason (JStr "[]")]
                       (Sample.world Sample.unreachable)
  = Check.collect_issues Sample.lib ([] ++ []) [] (Sample.world Sample.unreachable).
Proof.
  apply (collect_issues_reads_strings Sample.lib [] Sample.jason "[]" [] []
           (Sample.world Sample.unreachable)).
  reflexivity.
Defined.




